(** * MaterializedQueryResult: a shallow embedding

    The embedding follows
      src/main/materialized_query_result.cpp
      src/include/duckdb/main/materialized_query_result.hpp.

    The result object is a record; each member function is a computation
    that takes the object, and returns an outcome (a value or a thrown
    exception) together with the object as the call leaves it.  The row
    store, its scan cursor, the row view and the dynamic value belong to
    other files of the repository: they appear here as small models that
    carry only what the member functions consume. *)

From Stdlib Require Import String Ascii ZArith QArith Lia Bool PeanoNat Arith.
From Stdlib Require Import DecimalString.
From Stdlib Require Import List.
Import ListNotations.

Local Open Scope string_scope.
Local Open Scope nat_scope.

(** ** Exceptions and outcomes *)

(** The two exception classes the file throws itself, and the two failures
    that come from the containers it goes through: `->` on an empty
    unique_ptr, and an index past the end of the row view.  The last two are
    kept apart from the first two so that a theorem can tell which check
    fired. *)
Inductive exception : Type :=
| InvalidInputException (msg : string)
| InternalException (msg : string)
| NullDereference
| IndexOutOfRange.

Inductive outcome (A : Type) : Type :=
| Ok (a : A)
| Throw (e : exception).
Arguments Ok {A} a.
Arguments Throw {A} e.

(** The call threw, whatever the exception. *)
Definition fails {A} (o : outcome A) : Prop :=
  exists e, o = Throw e.

(** `p->...` and `*p` on a unique_ptr. *)
Definition deref {A} (p : option A) : outcome A :=
  match p with
  | Some a => Ok a
  | None => Throw NullDereference
  end.

(** idx_t is an unsigned 64-bit count of rows or columns held in memory; the
    loops below only count up to a container's size, so it is read as nat. *)
Definition idx_t := nat.

(** ** Logical type tags *)

(** The tags the switch of getContents names, and one constructor for every
    other tag of the enumeration (DATE, TIMESTAMP, BLOB, HUGEINT, ...). *)
Inductive LogicalTypeId : Type :=
| BOOLEAN | TINYINT | SMALLINT | INTEGER | BIGINT
| UTINYINT | USMALLINT | UINTEGER | UBIGINT
| FLOAT | DOUBLE | DECIMAL | VARCHAR
| OTHER_TYPE (tag : nat).

Definition LogicalTypeId_eq_dec (a b : LogicalTypeId) : {a = b} + {a <> b}.
Proof. decide equality. apply Nat.eq_dec. Defined.

Definition type_eqb (a b : LogicalTypeId) : bool :=
  if LogicalTypeId_eq_dec a b then true else false.

(** ** The dynamic value *)

(** Modelled from the spec: the Value class is declared outside the two
    files.  Section 6 lists what is consumed from it: the null test, the
    logical type tag, the narrowing accessors GetValue<T>() and the textual
    rendering ToString().  [CDouble] stands for the C++ double. *)
Class DynamicValue : Type := {
  Value : Type;
  CDouble : Type;
  IsNull : Value -> bool;
  type_id : Value -> LogicalTypeId;
  GetValue_bool : Value -> bool;
  GetValue_int64 : Value -> Z;
  GetValue_uint64 : Value -> Z;
  GetValue_int : Value -> Z;
  GetValue_uint32 : Value -> Z;
  GetValue_double : Value -> CDouble;
  GetValue_string : Value -> string;
  Value_ToString : Value -> string
}.

(** ** The tagged records of the header *)

Section Model.
Context {DV : DynamicValue}.

(** struct Base and its derived records; [data_id] is the id field each
    constructor stores. *)
Inductive Base : Type :=
| IntData (value : Z)
| UIntData (value : Z)
| BigIntData (value : Z)
| UBigIntData (value : Z)
| DoubleData (value : CDouble)
| StringData (value : string)
| BoolData (value : bool).

Definition data_id (b : Base) : Z :=
  match b with
  | IntData _ => 13
  | UIntData _ => 30
  | BigIntData _ => 14
  | UBigIntData _ => 31
  | DoubleData _ => 23
  | StringData _ => 25
  | BoolData _ => 13
  end%Z.

(** ** The row store *)

(** A row as the row iteration hands it out. *)
Definition ColumnDataRow := list Value.

(** Modelled from the spec: ColumnDataCollection is declared outside the two
    files.  It holds the full result set in memory and exposes the row
    count, the column count, the column types, a chunked scan cursor and a
    row view; [vector_size] is its natural chunk size. *)
Record ColumnDataCollection : Type := {
  Types : list LogicalTypeId;
  row_data : list ColumnDataRow;
  vector_size : positive
}.

Definition Count (c : ColumnDataCollection) : idx_t := length (row_data c).
Definition ColumnCount (c : ColumnDataCollection) : idx_t := length (Types c).
Definition Rows (c : ColumnDataCollection) : list ColumnDataRow := row_data c.

(** Every row of a store has one cell per column. *)
Definition well_formed (c : ColumnDataCollection) : Prop :=
  Forall (fun row => length row = ColumnCount c) (row_data c).

(** Modelled from the spec: row.GetValue(col_idx), the cell of a row at a
    column; a column past the end of the row is a failure. *)
Definition Row_GetValue (row : ColumnDataRow) (col_idx : idx_t) : outcome Value :=
  match nth_error row col_idx with
  | Some v => Ok v
  | None => Throw IndexOutOfRange
  end.

(** Modelled from the spec: DataChunk, one batch of rows. *)
Record DataChunk : Type := {
  chunk_types : list LogicalTypeId;
  chunk_rows : list ColumnDataRow
}.

Definition size (d : DataChunk) : idx_t := length (chunk_rows d).

(** Modelled from the spec: the scan cursor is the position of the next row
    to deliver. *)
Record ColumnDataScanState : Type := {
  current_row : idx_t
}.

Definition default_scan_state : ColumnDataScanState := {| current_row := 0 |}.

(** Modelled from the spec: collection->InitializeScanChunk(chunk) gives
    the empty chunk its column types. *)
Definition InitializeScanChunk (c : ColumnDataCollection) : DataChunk :=
  {| chunk_types := Types c; chunk_rows := [] |}.

(** Modelled from the spec: collection->InitializeScan(state,
    DISALLOW_ZERO_COPY) puts the cursor at the start of the store. *)
Definition InitializeScan (c : ColumnDataCollection) : ColumnDataScanState :=
  {| current_row := 0 |}.

(** Modelled from the spec: collection->Scan(state, chunk) fills the chunk
    with the next batch, at most [vector_size] rows in store order, and
    moves the cursor past it; at the end of the store the batch is empty. *)
Definition Scan (c : ColumnDataCollection) (st : ColumnDataScanState)
    (chunk : DataChunk) : ColumnDataScanState * DataChunk :=
  let batch := firstn (Pos.to_nat (vector_size c))
                      (skipn (current_row st) (row_data c)) in
  ({| current_row := current_row st + length batch |},
   {| chunk_types := chunk_types chunk; chunk_rows := batch |}).

(** Modelled from the spec: ColumnDataRowCollection, the row view built by
    collection->GetRows() from the store's full row set. *)
Record ColumnDataRowCollection : Type := {
  view_rows : list ColumnDataRow
}.

Definition GetRows (c : ColumnDataCollection) : ColumnDataRowCollection :=
  {| view_rows := row_data c |}.

(** Modelled from the spec: row_collection->GetValue(column, index), the
    value at a zero-based column and row index of the view. *)
Definition RowCollection_GetValue (rc : ColumnDataRowCollection)
    (column index : idx_t) : outcome Value :=
  match nth_error (view_rows rc) index with
  | Some row => Row_GetValue row column
  | None => Throw IndexOutOfRange
  end.

End Model.

(** Modelled from the spec: the renderers are external.  HeaderToString()
    belongs to the QueryResult base class and formats the column names and
    types; BoxRenderer::ToString draws the box from the names and the
    store. *)
Class Renderers {DV : DynamicValue} : Type := {
  QueryResult_HeaderToString : list string -> list LogicalTypeId -> string;
  BoxRenderer_ToString : list string -> ColumnDataCollection -> string
}.

(** ** The result object *)

Section Result.
Context {DV : DynamicValue} {RD : Renderers}.

(** The members of MaterializedQueryResult and those of its base class
    that the member functions read: success, error, names, types.  The
    statement type and the property records are passed through to the base
    class and read by none of the functions below. *)
Record MaterializedQueryResult : Type := {
  success : bool;
  error : string;
  names : list string;
  types : list LogicalTypeId;
  collection : option ColumnDataCollection;
  row_collection : option ColumnDataRowCollection;
  scan_state : ColumnDataScanState;
  scan_initialized : bool
}.

Definition set_collection (p : option ColumnDataCollection)
    (r : MaterializedQueryResult) : MaterializedQueryResult :=
  {| success := success r; error := error r; names := names r;
     types := types r; collection := p;
     row_collection := row_collection r;
     scan_state := scan_state r; scan_initialized := scan_initialized r |}.

Definition set_row_collection (p : option ColumnDataRowCollection)
    (r : MaterializedQueryResult) : MaterializedQueryResult :=
  {| success := success r; error := error r; names := names r;
     types := types r; collection := collection r;
     row_collection := p;
     scan_state := scan_state r; scan_initialized := scan_initialized r |}.

Definition set_scan_state (st : ColumnDataScanState)
    (r : MaterializedQueryResult) : MaterializedQueryResult :=
  {| success := success r; error := error r; names := names r;
     types := types r; collection := collection r;
     row_collection := row_collection r;
     scan_state := st; scan_initialized := scan_initialized r |}.

Definition set_scan_initialized (b : bool)
    (r : MaterializedQueryResult) : MaterializedQueryResult :=
  {| success := success r; error := error r; names := names r;
     types := types r; collection := collection r;
     row_collection := row_collection r;
     scan_state := scan_state r; scan_initialized := b |}.

(** *** Member functions as computations on the object *)

(** A member function runs on the object and leaves it, changed or not,
    with a value or an exception; what was assigned before a throw stays
    assigned. *)
Definition M (A : Type) : Type :=
  MaterializedQueryResult -> outcome A * MaterializedQueryResult.

Definition ret {A} (a : A) : M A := fun this => (Ok a, this).

Definition throw {A} (e : exception) : M A := fun this => (Throw e, this).

Definition bind {A B} (m : M A) (k : A -> M B) : M B :=
  fun this =>
    match m this with
    | (Ok a, this') => k a this'
    | (Throw e, this') => (Throw e, this')
    end.

Definition get : M MaterializedQueryResult := fun this => (Ok this, this).

Definition modify (f : MaterializedQueryResult -> MaterializedQueryResult)
    : M unit :=
  fun this => (Ok tt, f this).

Definition lift {A} (o : outcome A) : M A := fun this => (o, this).

End Result.

Declare Scope mqr_scope.
Delimit Scope mqr_scope with mqr.
Notation "x <- m ;; k" := (bind m (fun x => k))
  (at level 61, m at next level, right associativity) : mqr_scope.
Notation "m ;;; k" := (bind m (fun _ => k))
  (at level 61, right associativity) : mqr_scope.

Local Open Scope mqr_scope.

(** ** Text helpers *)

(** The line feed of the C++ string literals. *)
Definition nl : string := String (ascii_of_nat 10) EmptyString.

Definition tab : string := String (ascii_of_nat 9) EmptyString.

(** to_string(idx_t) *)
Definition to_string (n : idx_t) : string :=
  NilEmpty.string_of_uint (Nat.to_uint n).

(** StringUtil::Replace(source, from, to) for a one-character [from], the
    only use the file makes of it. *)
Fixpoint Replace (source : string) (from : ascii) (to : string) : string :=
  match source with
  | EmptyString => EmptyString
  | String ch rest =>
      if Ascii.eqb ch from then to ++ Replace rest from to
      else String ch (Replace rest from to)
  end.

Section Members.
Context {DV : DynamicValue} {RD : Renderers}.

(** *** Constructors *)

(** MaterializedQueryResult(statement_type, properties, names_p,
    collection_p, client_properties): the types are read through
    collection_p before it is moved into the member. *)
Definition MaterializedQueryResult_success (names_p : list string)
    (collection_p : option ColumnDataCollection)
    : outcome MaterializedQueryResult :=
  match deref collection_p with
  | Ok c =>
      Ok {| success := true; error := EmptyString; names := names_p;
            types := Types c; collection := collection_p;
            row_collection := None; scan_state := default_scan_state;
            scan_initialized := false |}
  | Throw e => Throw e
  end.

(** MaterializedQueryResult(ErrorData error) *)
Definition MaterializedQueryResult_error (err : string)
    : MaterializedQueryResult :=
  {| success := false; error := err; names := []; types := [];
     collection := None; row_collection := None;
     scan_state := default_scan_state; scan_initialized := false |}.

(** *** Accessors of the base class *)

(** Modelled from the spec: HasError() and GetError() are pure accessors
    over the error state of the base class. *)
Definition HasError (this : MaterializedQueryResult) : bool :=
  negb (success this).

Definition GetError (this : MaterializedQueryResult) : string :=
  error this.

Definition HeaderToString (this : MaterializedQueryResult) : string :=
  QueryResult_HeaderToString (names this) (types this).

(** The test `!p` / `p ? .. : ..` on a unique_ptr. *)
Definition is_null {A} (p : option A) : bool :=
  match p with Some _ => false | None => true end.

(** *** Collection and TakeCollection *)

Definition Collection : M ColumnDataCollection :=
  this <- get ;;
  if HasError this then
    throw (InvalidInputException
      ("Attempting to get collection from an unsuccessful query result" ++ nl
       ++ ": Error " ++ GetError this))
  else if is_null (collection this) then
    throw (InternalException "Missing collection from materialized query result")
  else
    lift (deref (collection this)).

Definition TakeCollection : M ColumnDataCollection :=
  this <- get ;;
  if HasError this then
    throw (InvalidInputException
      ("Attempting to get collection from an unsuccessful query result" ++ nl
       ++ ": Error " ++ GetError this))
  else if is_null (collection this) then
    throw (InternalException "Missing collection from materialized query result")
  else
    moved <- lift (deref (collection this)) ;;
    modify (set_collection None) ;;;
    ret moved.

(** *** RowCount *)

(** A const member: it reads the object and cannot change it. *)
Definition RowCount (this : MaterializedQueryResult) : outcome idx_t :=
  if negb (is_null (collection this)) then
    match deref (collection this) with
    | Ok c => Ok (Count c)
    | Throw e => Throw e
    end
  else Ok 0.

(** *** GetValue *)

Definition GetValue (column index : idx_t) : M Value :=
  this <- get ;;
  (if is_null (row_collection this) then
     c <- lift (deref (collection this)) ;;
     modify (set_row_collection (Some (GetRows c)))
   else ret tt) ;;;
  this <- get ;;
  rc <- lift (deref (row_collection this)) ;;
  lift (RowCollection_GetValue rc column index).

(** template <class T> T GetValue(column, index): [cast] is the C cast
    (T) applied to the int64_t. *)
Definition GetValue_as {T : Type} (cast : Z -> T) (column index : idx_t)
    : M T :=
  value <- GetValue column index ;;
  ret (cast (GetValue_int64 value)).

(** *** Fetch and FetchRaw *)

Definition FetchRaw : M (option DataChunk) :=
  this <- get ;;
  if HasError this then
    throw (InvalidInputException
      ("Attempting to fetch from an unsuccessful query result" ++ nl
       ++ "Error: " ++ GetError this))
  else
    c <- lift (deref (collection this)) ;;
    let result := InitializeScanChunk c in
    (if negb (scan_initialized this) then
       c <- lift (deref (collection this)) ;;
       modify (set_scan_state (InitializeScan c)) ;;;
       modify (set_scan_initialized true)
     else ret tt) ;;;
    this <- get ;;
    c <- lift (deref (collection this)) ;;
    let (st, result) := Scan c (scan_state this) result in
    modify (set_scan_state st) ;;;
    if size result =? 0 then ret None
    else ret (Some result).

Definition Fetch : M (option DataChunk) := FetchRaw.

(** *** Loops *)

(** A range-for over a container, or a counting for over [seq 0 n]: the
    body runs once per element, in order, on the accumulated local state,
    and a throw in the body leaves the loop. *)
Fixpoint for_each {A S : Type} (l : list A) (body : A -> S -> M S)
    (acc : S) : M S :=
  match l with
  | [] => ret acc
  | x :: rest => acc' <- body x acc ;; for_each rest body acc'
  end.

(** vector::push_back *)
Definition push_back {A} (v : list A) (x : A) : list A := v ++ [x].

(** *** getContents *)

(** A slot of the matrix is a unique_ptr<Base>: None is nullptr. *)
Definition Slot := option Base.

(** The switch on val.type().id(), for a value that is not null. *)
Definition switch_type_id (val : Value) : Slot :=
  match type_id val with
  | BOOLEAN => Some (BoolData (GetValue_bool val))
  | BIGINT => Some (BigIntData (GetValue_int64 val))
  | UBIGINT => Some (UBigIntData (GetValue_uint64 val))
  | INTEGER | SMALLINT | TINYINT | USMALLINT | UTINYINT =>
      Some (IntData (GetValue_int val))
  | UINTEGER => Some (UIntData (GetValue_uint32 val))
  | DOUBLE | FLOAT | DECIMAL => Some (DoubleData (GetValue_double val))
  | VARCHAR => Some (StringData (GetValue_string val))
  | OTHER_TYPE _ => Some (StringData (Value_ToString val))
  end.

Definition getContents : M (list (list Slot)) :=
  let overallResult : list (list Slot) := [] in
  this <- get ;;
  if negb (success this) then ret overallResult
  else
    coll <- Collection ;;
    for_each (Rows coll) (fun row overallResult =>
      let dataVector : list Slot := [] in
      dataVector <- for_each (seq 0 (ColumnCount coll))
        (fun col_idx dataVector =>
           val <- lift (Row_GetValue row col_idx) ;;
           if negb (IsNull val) then
             ret (push_back dataVector (switch_type_id val))
           else
             ret (push_back dataVector None))
        dataVector ;;
      ret (push_back overallResult dataVector))
    overallResult.

(** *** ToString and ToBox *)

Definition NUL : ascii := ascii_of_nat 0.

Definition ToString : M string :=
  this <- get ;;
  if success this then
    let result := HeaderToString this in
    c <- lift (deref (collection this)) ;;
    let result := result ++ "[ Rows: " ++ to_string (Count c) ++ "]" ++ nl in
    coll <- Collection ;;
    result <- for_each (Rows coll) (fun row result =>
      result <- for_each (seq 0 (ColumnCount coll))
        (fun col_idx result =>
           let result := if 0 <? col_idx then result ++ tab else result in
           val <- lift (Row_GetValue row col_idx) ;;
           ret (result ++ (if IsNull val then "NULL"
                           else Replace (Value_ToString val) NUL "\0")))
        result ;;
      ret (result ++ nl))
    result ;;
    ret (result ++ nl)
  else
    ret (GetError this ++ nl).

Definition ToBox : M string :=
  this <- get ;;
  if negb (success this) then ret (GetError this ++ nl)
  else if is_null (collection this) then
    ret "Internal error - result was successful but there was no collection"
  else
    coll <- Collection ;;
    ret (BoxRenderer_ToString (names this) coll).

End Members.

(** ** Driving the object *)

Section Driving.
Context {DV : DynamicValue} {RD : Renderers}.

(** The outcomes of [n] consecutive FetchRaw() calls and the object after
    the last one. *)
Fixpoint fetch_trace (n : nat) (this : MaterializedQueryResult)
    : list (outcome (option DataChunk)) * MaterializedQueryResult :=
  match n with
  | 0 => ([], this)
  | S n' =>
      let (o, this') := FetchRaw this in
      let (os, this'') := fetch_trace n' this' in
      (o :: os, this'')
  end.

(** The rows a consumer sees when it scans a store from the start until the
    first empty batch. *)
Fixpoint scan_rows (fuel : nat) (c : ColumnDataCollection)
    (st : ColumnDataScanState) : list ColumnDataRow :=
  match fuel with
  | 0 => []
  | S fuel' =>
      let (st', chunk) := Scan c st (InitializeScanChunk c) in
      if size chunk =? 0 then []
      else chunk_rows chunk ++ scan_rows fuel' c st'
  end.

Definition full_scan (c : ColumnDataCollection) : list ColumnDataRow :=
  scan_rows (S (Count c)) c (InitializeScan c).

(** The cell of row [index], column [column] in a list of rows. *)
Definition cell (rows : list ColumnDataRow) (index column : idx_t)
    : option Value :=
  match nth_error rows index with
  | Some row => nth_error row column
  | None => None
  end.

(** The batch Scan delivers at cursor position [p]. *)
Definition batch_at (c : ColumnDataCollection) (p : idx_t)
    : list ColumnDataRow :=
  firstn (Pos.to_nat (vector_size c)) (skipn p (row_data c)).

(** The slot getContents() pushes for one cell. *)
Definition pushed_slot (val : Value) : Slot :=
  if negb (IsNull val) then switch_type_id val else None.

(** Computations that leave the object as they found it. *)
Definition read_only {A} (m : M A) : Prop :=
  forall this, snd (m this) = this.

(** The calls a consumer can make on the object. *)
Inductive call : Type :=
| call_Collection
| call_TakeCollection
| call_Fetch
| call_FetchRaw
| call_GetValue (column index : idx_t)
| call_getContents
| call_ToString
| call_ToBox.

(** The object after a call, whether it returned or threw. *)
Definition after (c : call) (this : MaterializedQueryResult)
    : MaterializedQueryResult :=
  match c with
  | call_Collection => snd (Collection this)
  | call_TakeCollection => snd (TakeCollection this)
  | call_Fetch => snd (Fetch this)
  | call_FetchRaw => snd (FetchRaw this)
  | call_GetValue column index => snd (GetValue column index this)
  | call_getContents => snd (getContents this)
  | call_ToString => snd (ToString this)
  | call_ToBox => snd (ToBox this)
  end.

(** The objects a program can hold: built by one of the two constructors,
    then driven through any sequence of calls. *)
Inductive reachable : MaterializedQueryResult -> Prop :=
| reachable_success names_p collection_p this :
    MaterializedQueryResult_success names_p collection_p = Ok this ->
    reachable this
| reachable_error err :
    reachable (MaterializedQueryResult_error err)
| reachable_call c this :
    reachable this -> reachable (after c this).

(** What holds of every such object: an error result owns no store and no
    row view, and a row view, once built, is the view of the store the
    object was built around. *)
Definition invariant (this : MaterializedQueryResult) : Prop :=
  (success this = false ->
     collection this = None /\ row_collection this = None) /\
  (forall rc c, row_collection this = Some rc ->
     collection this = Some c -> rc = GetRows c).

(** ** The extraction table of the specification *)

Definition one_of (t : LogicalTypeId) (l : list LogicalTypeId) : bool :=
  existsb (type_eqb t) l.

(** The mapping table of section 4.4 read top to bottom, first match
    wins. *)
Definition table_variant (val : Value) : Base :=
  let t := type_id val in
  if type_eqb t BOOLEAN then BoolData (GetValue_bool val)
  else if type_eqb t BIGINT then BigIntData (GetValue_int64 val)
  else if type_eqb t UBIGINT then UBigIntData (GetValue_uint64 val)
  else if one_of t [INTEGER; SMALLINT; TINYINT; USMALLINT; UTINYINT]
       then IntData (GetValue_int val)
  else if type_eqb t UINTEGER then UIntData (GetValue_uint32 val)
  else if one_of t [FLOAT; DOUBLE; DECIMAL]
       then DoubleData (GetValue_double val)
  else if type_eqb t VARCHAR then StringData (GetValue_string val)
  else StringData (Value_ToString val).

(** A null cell gives an absent slot. *)
Definition table_slot (val : Value) : Slot :=
  if IsNull val then None else Some (table_variant val).

(** The matrix of section 3: one row per store row, one slot per cell. *)
Definition table_matrix (c : ColumnDataCollection) : list (list Slot) :=
  map (map table_slot) (row_data c).

(** The object after a sequence of calls, the first call of the list
    first. *)
Definition after_calls (cs : list call) (this : MaterializedQueryResult)
    : MaterializedQueryResult :=
  fold_left (fun this c => after c this) cs this.

(** The calls that drive the sequential scan. *)
Definition is_fetch (c : call) : bool :=
  match c with
  | call_Fetch | call_FetchRaw => true
  | _ => false
  end.

(** The text ToString() writes for one cell and for one row: the cells
    separated by tabs, the row closed by a line feed. *)
Definition cell_text (val : Value) : string :=
  if IsNull val then "NULL" else Replace (Value_ToString val) NUL "\0".

Definition row_text (row : ColumnDataRow) : string :=
  String.concat tab (map cell_text row) ++ nl.

(** The characters of a text. *)
Definition chars (s : string) : list ascii := list_ascii_of_string s.

(** The cell at a row and column of a matrix of slots. *)
Definition slot_at (matrix : list (list Slot)) (index column : idx_t)
    : option Slot :=
  match nth_error matrix index with
  | Some slots => nth_error slots column
  | None => None
  end.

(** Which derived record a Base is. *)
Inductive kind : Type :=
| kind_Int | kind_UInt | kind_BigInt | kind_UBigInt
| kind_Double | kind_String | kind_Bool.

Definition kind_of (b : Base) : kind :=
  match b with
  | IntData _ => kind_Int
  | UIntData _ => kind_UInt
  | BigIntData _ => kind_BigInt
  | UBigIntData _ => kind_UBigInt
  | DoubleData _ => kind_Double
  | StringData _ => kind_String
  | BoolData _ => kind_Bool
  end.


(** The cells after the first one of a row, each behind its tab. *)
Definition tab_joined (cells : list string) : string :=
  fold_right (fun cell rest => tab ++ cell ++ rest) EmptyString cells.

(** Computations whose outcome does not depend on the object they run
    on. *)
Definition state_blind {A} (m : M A) : Prop :=
  forall this1 this2, fst (m this1) = fst (m this2).


End Driving.

(** ** C casts from int64_t *)

(** (T)x for an unsigned integer type of [w] bits. *)
Definition cast_unsigned (w : Z) (x : Z) : Z := x mod 2 ^ w.

(** (T)x for a signed integer type of [w] bits (two's complement). *)
Definition cast_signed (w : Z) (x : Z) : Z :=
  (x + 2 ^ (w - 1)) mod 2 ^ w - 2 ^ (w - 1).

(** ** A concrete value type *)

(** A small dynamic value on which the definitions above can be run: a type
    tag, a null flag, an integer payload and a text payload. *)
Record SampleValue : Type := {
  sample_type : LogicalTypeId;
  sample_null : bool;
  sample_int : Z;
  sample_text : string
}.

#[local] Instance Sample_DynamicValue : DynamicValue := {|
  Value := SampleValue;
  CDouble := Q;
  IsNull := sample_null;
  type_id := sample_type;
  GetValue_bool := fun v => negb (sample_int v =? 0)%Z;
  GetValue_int64 := fun v => cast_signed 64 (sample_int v);
  GetValue_uint64 := fun v => cast_unsigned 64 (sample_int v);
  GetValue_int := fun v => cast_signed 32 (sample_int v);
  GetValue_uint32 := fun v => cast_unsigned 32 (sample_int v);
  GetValue_double := fun v => inject_Z (sample_int v);
  GetValue_string := sample_text;
  Value_ToString := sample_text
|}.

#[local] Instance Sample_Renderers : Renderers := {|
  QueryResult_HeaderToString := fun names _ =>
    fold_right (fun name rest => name ++ tab ++ rest) nl names;
  BoxRenderer_ToString := fun names _ => String.concat " | " names
|}.

Definition sample_integer (n : Z) : SampleValue :=
  {| sample_type := INTEGER; sample_null := false;
     sample_int := n;
     sample_text := NilEmpty.string_of_int (Z.to_int n) |}.

Definition sample_varchar (s : string) : SampleValue :=
  {| sample_type := VARCHAR; sample_null := false;
     sample_int := 0; sample_text := s |}.

Definition sample_boolean (b : bool) : SampleValue :=
  {| sample_type := BOOLEAN; sample_null := false;
     sample_int := if b then 1 else 0;
     sample_text := if b then "true" else "false" |}.

Definition sample_null_of (t : LogicalTypeId) : SampleValue :=
  {| sample_type := t; sample_null := true;
     sample_int := 0; sample_text := EmptyString |}.

(** A store of three rows and two columns (INTEGER, VARCHAR) delivered in
    batches of two rows. *)
Definition sample_store : ColumnDataCollection :=
  {| Types := [INTEGER; VARCHAR];
     row_data := [ [sample_integer 1; sample_varchar "abc"];
                   [sample_integer 2; sample_null_of VARCHAR];
                   [sample_integer 3; sample_varchar "xyz"] ];
     vector_size := 2 |}.

Definition sample_result : MaterializedQueryResult :=
  {| success := true; error := EmptyString; names := ["id"; "name"];
     types := [INTEGER; VARCHAR]; collection := Some sample_store;
     row_collection := None; scan_state := default_scan_state;
     scan_initialized := false |}.

Definition sample_error_result : MaterializedQueryResult :=
  MaterializedQueryResult_error "division by zero".

(** * Properties *)

Section Properties.
Context {DV : DynamicValue} {RD : Renderers}.

(** ** The object and its invariant *)

Lemma is_null_true {A} (p : option A) : is_null p = true <-> p = None.
Proof. destruct p; simpl; split; congruence. Qed.

Lemma Collection_present (this : MaterializedQueryResult) c :
  success this = true -> collection this = Some c ->
  Collection this = (Ok c, this).
Proof.
  intros Hs Hc. unfold Collection, bind, get, throw, lift, HasError; simpl.
  rewrite Hs, Hc. reflexivity.
Qed.

Lemma Collection_absent (this : MaterializedQueryResult) :
  success this = true -> collection this = None ->
  Collection this =
    (Throw (InternalException
              "Missing collection from materialized query result"), this).
Proof.
  intros Hs Hc. unfold Collection, bind, get, throw, lift, HasError; simpl.
  rewrite Hs, Hc. reflexivity.
Qed.

Lemma read_only_ret {A} (a : A) : read_only (ret a).
Proof. intros this; reflexivity. Qed.

Lemma read_only_throw {A} e : read_only (throw e : M A).
Proof. intros this; reflexivity. Qed.

Lemma read_only_lift {A} (o : outcome A) : read_only (lift o).
Proof. intros this; reflexivity. Qed.

Lemma read_only_get : read_only get.
Proof. intros this; reflexivity. Qed.

Lemma read_only_bind {A B} (m : M A) (k : A -> M B) :
  read_only m -> (forall a, read_only (k a)) -> read_only (bind m k).
Proof.
  intros Hm Hk this. unfold bind. specialize (Hm this).
  destruct (m this) as [[a|e] this']; simpl in *; subst.
  - apply Hk.
  - reflexivity.
Qed.

Lemma read_only_for_each {A S} (body : A -> S -> M S) :
  (forall x acc, read_only (body x acc)) ->
  forall l acc, read_only (for_each l body acc).
Proof.
  intros Hbody l. induction l as [|x l IH]; intros acc; simpl.
  - apply read_only_ret.
  - apply read_only_bind; auto.
Qed.

Lemma read_only_if {A} (b : bool) (m1 m2 : M A) :
  read_only m1 -> read_only m2 -> read_only (if b then m1 else m2).
Proof. destruct b; auto. Qed.

Ltac split_all := repeat match goal with |- _ /\ _ => split end.

Ltac read_only_step :=
  first [ apply read_only_ret | apply read_only_throw | apply read_only_lift
        | apply read_only_get | apply read_only_if
        | apply read_only_for_each; intros
        | apply read_only_bind; [|intros] ].

Lemma Collection_read_only : read_only Collection.
Proof. unfold Collection. repeat read_only_step. Qed.

Lemma getContents_read_only : read_only getContents.
Proof.
  unfold getContents.
  repeat first [ apply Collection_read_only | read_only_step ].
Qed.

Lemma ToString_read_only : read_only ToString.
Proof.
  unfold ToString.
  repeat first [ apply Collection_read_only | read_only_step ].
Qed.

Lemma ToBox_read_only : read_only ToBox.
Proof.
  unfold ToBox.
  repeat first [ apply Collection_read_only | read_only_step ].
Qed.

(** *** What each mutating call does to the object *)

Lemma TakeCollection_error (this : MaterializedQueryResult) :
  HasError this = true ->
  TakeCollection this =
    (Throw (InvalidInputException
       ("Attempting to get collection from an unsuccessful query result"
        ++ nl ++ ": Error " ++ GetError this)), this).
Proof.
  intros H. unfold TakeCollection, bind, get, throw. rewrite H. reflexivity.
Qed.

Lemma TakeCollection_present (this : MaterializedQueryResult) c :
  success this = true -> collection this = Some c ->
  TakeCollection this = (Ok c, set_collection None this).
Proof.
  intros Hs Hc.
  unfold TakeCollection, bind, get, throw, lift, modify, ret, HasError.
  rewrite Hs, Hc. reflexivity.
Qed.

Lemma TakeCollection_absent (this : MaterializedQueryResult) :
  success this = true -> collection this = None ->
  TakeCollection this =
    (Throw (InternalException
              "Missing collection from materialized query result"), this).
Proof.
  intros Hs Hc.
  unfold TakeCollection, bind, get, throw, lift, modify, ret, HasError.
  rewrite Hs, Hc. reflexivity.
Qed.

(** A successful TakeCollection() hands out the store the object held and
    leaves the object without one. *)
Lemma TakeCollection_ok (this this' : MaterializedQueryResult) c :
  TakeCollection this = (Ok c, this') ->
  success this = true /\ collection this = Some c /\
  this' = set_collection None this.
Proof.
  intros H. destruct (success this) eqn:Hs.
  - destruct (collection this) as [c0|] eqn:Hc.
    + rewrite (TakeCollection_present this c0 Hs Hc) in H.
      inversion H; subst. auto.
    + rewrite (TakeCollection_absent this Hs Hc) in H. discriminate.
  - rewrite TakeCollection_error in H by (unfold HasError; rewrite Hs; reflexivity).
    discriminate.
Qed.

Lemma GetValue_cached (this : MaterializedQueryResult) rc column index :
  row_collection this = Some rc ->
  GetValue column index this = (RowCollection_GetValue rc column index, this).
Proof.
  intros H. unfold GetValue, bind, get, lift, ret. rewrite H. simpl.
  rewrite H. simpl. destruct (RowCollection_GetValue rc column index); reflexivity.
Qed.

Lemma GetValue_build (this : MaterializedQueryResult) c column index :
  row_collection this = None -> collection this = Some c ->
  GetValue column index this =
    (RowCollection_GetValue (GetRows c) column index,
     set_row_collection (Some (GetRows c)) this).
Proof.
  intros Hr Hc. unfold GetValue, bind, get, lift, ret, modify.
  rewrite Hr, Hc. simpl.
  destruct (RowCollection_GetValue (GetRows c) column index); reflexivity.
Qed.

Lemma GetValue_no_store (this : MaterializedQueryResult) column index :
  row_collection this = None -> collection this = None ->
  GetValue column index this = (Throw NullDereference, this).
Proof.
  intros Hr Hc. unfold GetValue, bind, get, lift, ret, modify.
  rewrite Hr, Hc. reflexivity.
Qed.

Lemma FetchRaw_error (this : MaterializedQueryResult) :
  HasError this = true ->
  FetchRaw this =
    (Throw (InvalidInputException
       ("Attempting to fetch from an unsuccessful query result" ++ nl
        ++ "Error: " ++ GetError this)), this).
Proof.
  intros H. unfold FetchRaw, bind, get, throw. rewrite H. reflexivity.
Qed.

Lemma FetchRaw_no_store (this : MaterializedQueryResult) :
  success this = true -> collection this = None ->
  FetchRaw this = (Throw NullDereference, this).
Proof.
  intros Hs Hc. unfold FetchRaw, bind, get, throw, lift, HasError.
  rewrite Hs, Hc. reflexivity.
Qed.

(** FetchRaw() writes the scan cursor and the flag, nothing else. *)
Lemma FetchRaw_keeps (this : MaterializedQueryResult) :
  let this' := snd (FetchRaw this) in
  success this' = success this /\ error this' = error this /\
  collection this' = collection this /\
  row_collection this' = row_collection this.
Proof.
  unfold FetchRaw, bind, get, throw, lift, modify, ret, HasError.
  destruct this as [s e n t [c|] rc st [|]]; destruct s; simpl; auto;
    unfold size; simpl;
    match goal with
    | |- context [if ?b then _ else _] => destruct b
    end; simpl; auto.
Qed.

Lemma invariant_after (c : call) (this : MaterializedQueryResult) :
  invariant this -> invariant (after c this).
Proof.
  intros Hinv. destruct c; simpl.
  - rewrite Collection_read_only. exact Hinv.
  - destruct (success this) eqn:Hs.
    + destruct (collection this) as [c0|] eqn:Hc.
      * rewrite (TakeCollection_present this c0 Hs Hc).
        destruct Hinv as [Herr Hview]. split; simpl.
        -- congruence.
        -- intros rc c1 _ Hnone. discriminate.
      * rewrite (TakeCollection_absent this Hs Hc). exact Hinv.
    + rewrite TakeCollection_error
        by (unfold HasError; rewrite Hs; reflexivity).
      exact Hinv.
  - unfold Fetch. destruct (FetchRaw_keeps this) as (H1 & _ & H3 & H4).
    destruct Hinv as [Herr Hview]. split.
    + rewrite H1, H3, H4. exact Herr.
    + rewrite H3, H4. exact Hview.
  - destruct (FetchRaw_keeps this) as (H1 & _ & H3 & H4).
    destruct Hinv as [Herr Hview]. split.
    + rewrite H1, H3, H4. exact Herr.
    + rewrite H3, H4. exact Hview.
  - destruct (row_collection this) as [rc|] eqn:Hr.
    + rewrite (GetValue_cached this rc column index Hr). exact Hinv.
    + destruct (collection this) as [c0|] eqn:Hc.
      * rewrite (GetValue_build this c0 column index Hr Hc).
        destruct Hinv as [Herr Hview]. split; simpl.
        -- intros Hs. destruct (Herr Hs). congruence.
        -- intros rc c1 H1 H2. congruence.
      * rewrite (GetValue_no_store this column index Hr Hc). exact Hinv.
  - rewrite getContents_read_only. exact Hinv.
  - rewrite ToString_read_only. exact Hinv.
  - rewrite ToBox_read_only. exact Hinv.
Qed.

Lemma reachable_invariant (this : MaterializedQueryResult) :
  reachable this -> invariant this.
Proof.
  induction 1 as [names_p collection_p this H | err | c this _ IH].
  - unfold MaterializedQueryResult_success in H.
    destruct collection_p as [c|]; simpl in H; [|discriminate].
    inversion H; subst. split; simpl; [discriminate|]. intros; discriminate.
  - split; simpl; [auto|]. intros; discriminate.
  - apply invariant_after. exact IH.
Qed.

(** ** Error results *)

(** On a reachable error result no store and no row view is held, so the
    first statement of GetValue() dereferences the empty store pointer. *)
Lemma GetValue_error_result (this : MaterializedQueryResult) column index :
  reachable this -> HasError this = true ->
  GetValue column index this = (Throw NullDereference, this).
Proof.
  intros Hreach Herr. apply reachable_invariant in Hreach.
  destruct Hreach as [Hnone _].
  unfold HasError in Herr. apply negb_true_iff in Herr.
  destruct (Hnone Herr) as [Hc Hr].
  apply GetValue_no_store; assumption.
Qed.

(** C1: on the error result built from "division by zero", GetValue(0, 0)
    does not go through Collection() and throws no invalid-input error: it
    builds the row view first and so dereferences the empty store pointer,
    while Collection() on the same object throws the invalid-input error. *)
Theorem C1_GetValue_error_result_null_dereference :
  let this := MaterializedQueryResult_error "division by zero" in
  HasError this = true /\
  GetValue 0 0 this = (Throw NullDereference, this) /\
  (forall msg, fst (GetValue 0 0 this) <> Throw (InvalidInputException msg)) /\
  (exists msg, fst (Collection this) = Throw (InvalidInputException msg)).
Proof.
  simpl. split; [reflexivity|]. split; [reflexivity|]. split.
  - intros msg. simpl. discriminate.
  - eexists. reflexivity.
Qed.

(** C5: on every result object with HasError() true, getContents() returns
    the empty matrix, throws nothing and leaves the object as it was. *)
Theorem C5_getContents_error_result_empty (this : MaterializedQueryResult) :
  HasError this = true -> getContents this = (Ok [], this).
Proof.
  intros H. unfold HasError in H.
  unfold getContents, bind, get, ret. rewrite H. reflexivity.
Qed.

(** C7: Fetch() returns exactly what FetchRaw() returns on every object,
    and on every object with HasError() true FetchRaw() throws an
    invalid-input error whose message ends with the error text. *)
Theorem C7_Fetch_alias_and_error (this : MaterializedQueryResult) :
  Fetch this = FetchRaw this /\
  (HasError this = true ->
   FetchRaw this =
     (Throw (InvalidInputException
        ("Attempting to fetch from an unsuccessful query result" ++ nl
         ++ "Error: " ++ GetError this)), this)).
Proof.
  split; [reflexivity|]. apply FetchRaw_error.
Qed.

(** C8: on every result object with HasError() true, ToString() returns the
    error text followed by one line feed, and the store pointer, the row
    view and the scan cursor play no part: whatever they hold, the call
    returns the same text and leaves them as they were. *)
Theorem C8_ToString_error_result (this : MaterializedQueryResult) :
  HasError this = true ->
  ToString this = (Ok (GetError this ++ nl), this) /\
  nl = String (ascii_of_nat 10) EmptyString /\
  forall p rc st b,
    let other :=
      set_collection p (set_row_collection rc
        (set_scan_state st (set_scan_initialized b this))) in
    ToString other = (Ok (GetError this ++ nl), other).
Proof.
  intros H. unfold HasError in H. apply negb_true_iff in H.
  split; [|split; [reflexivity|]].
  - unfold ToString, bind, get, ret. rewrite H. reflexivity.
  - intros p rc st b other.
    unfold ToString, bind, get, ret. subst other. simpl. rewrite H.
    reflexivity.
Qed.

(** C10: RowCount() never throws; it returns the store's row count when
    the store is present and 0 when it is absent, which is the case on
    every error result and after a successful TakeCollection(). *)
Theorem C10_RowCount_total (this : MaterializedQueryResult) :
  (exists n, RowCount this = Ok n) /\
  (forall c, collection this = Some c -> RowCount this = Ok (Count c)) /\
  (collection this = None -> RowCount this = Ok 0) /\
  (reachable this -> HasError this = true -> RowCount this = Ok 0) /\
  (forall c this', TakeCollection this = (Ok c, this') ->
     RowCount this = Ok (Count c) /\ RowCount this' = Ok 0).
Proof.
  assert (Hsome : forall c, collection this = Some c ->
                            RowCount this = Ok (Count c)).
  { intros c Hc. unfold RowCount. rewrite Hc. reflexivity. }
  assert (Hnone : collection this = None -> RowCount this = Ok 0).
  { intros Hc. unfold RowCount. rewrite Hc. reflexivity. }
  split; [|split; [exact Hsome|split; [exact Hnone|split]]].
  - destruct (collection this) as [c|] eqn:Hc.
    + exists (Count c). auto.
    + exists 0. auto.
  - intros Hreach Herr. apply Hnone.
    apply reachable_invariant in Hreach. destruct Hreach as [Hinv _].
    unfold HasError in Herr. apply negb_true_iff in Herr.
    apply Hinv. exact Herr.
  - intros c this' Htake.
    apply TakeCollection_ok in Htake. destruct Htake as (_ & Hc & ->).
    split; [auto|]. reflexivity.
Qed.

(** ** After the store has been taken *)


(** ** The typed accessor *)

Lemma GetValue_reads_cell (this : MaterializedQueryResult) R column index v :
  reachable this -> collection this = Some R ->
  cell (row_data R) index column = Some v ->
  fst (GetValue column index this) = Ok v.
Proof.
  intros Hreach Hc Hcell. apply reachable_invariant in Hreach.
  destruct Hreach as [_ Hview].
  assert (Hget : RowCollection_GetValue (GetRows R) column index = Ok v).
  { unfold RowCollection_GetValue, GetRows, Row_GetValue; simpl.
    unfold cell in Hcell.
    destruct (nth_error (row_data R) index) as [row|]; [|discriminate].
    rewrite Hcell. reflexivity. }
  destruct (row_collection this) as [rc|] eqn:Hr.
  - rewrite (GetValue_cached this rc column index Hr). simpl.
    rewrite (Hview rc R eq_refl Hc). exact Hget.
  - rewrite (GetValue_build this R column index Hr Hc). exact Hget.
Qed.

(** C9: for every column, row index and target type T with its cast from
    int64_t, GetValue<T>(column, index) is GetValue(column, index) narrowed
    by GetValue<int64_t>() and then cast to T; a throw of GetValue passes
    through, and on an object that holds its store the result is the cast
    of the narrowed cell. *)
Theorem C9_GetValue_as_via_int64 {T : Type} (cast : Z -> T)
    (column index : idx_t) (this : MaterializedQueryResult) :
  GetValue_as cast column index this =
    (match fst (GetValue column index this) with
     | Ok value => Ok (cast (GetValue_int64 value))
     | Throw e => Throw e
     end, snd (GetValue column index this)) /\
  (forall R v, reachable this -> collection this = Some R ->
     cell (row_data R) index column = Some v ->
     fst (GetValue_as cast column index this) =
       Ok (cast (GetValue_int64 v))).
Proof.
  assert (Hlaw : GetValue_as cast column index this =
    (match fst (GetValue column index this) with
     | Ok value => Ok (cast (GetValue_int64 value))
     | Throw e => Throw e
     end, snd (GetValue column index this))).
  { unfold GetValue_as, bind, ret.
    destruct (GetValue column index this) as [[value|e] this']; reflexivity. }
  split; [exact Hlaw|].
  intros R v Hreach Hc Hcell. rewrite Hlaw. simpl.
  rewrite (GetValue_reads_cell this R column index v Hreach Hc Hcell).
  reflexivity.
Qed.

(** ** Bulk extraction *)

Lemma skipn_nth_error {A} (l : list A) k x :
  nth_error l k = Some x -> skipn k l = x :: skipn (S k) l.
Proof.
  revert l. induction k as [|k IH]; intros [|y l] H; simpl in *;
    try discriminate.
  - inversion H; reflexivity.
  - apply IH. exact H.
Qed.

(** The switch of the source and the table of the specification agree on
    every tag. *)
Lemma switch_type_id_table (val : Value) :
  switch_type_id val = Some (table_variant val).
Proof.
  unfold switch_type_id, table_variant.
  destruct (type_id val); reflexivity.
Qed.

Lemma pushed_slot_table (val : Value) : pushed_slot val = table_slot val.
Proof.
  unfold pushed_slot, table_slot.
  destruct (IsNull val); simpl; [reflexivity|apply switch_type_id_table].
Qed.

(** The inner loop, started at column [k] with [n] columns to go. *)
Lemma column_loop (row : ColumnDataRow) (this : MaterializedQueryResult) :
  forall n k (dataVector : list Slot),
    k + n <= length row ->
    for_each (seq k n)
      (fun col_idx dataVector =>
         val <- lift (Row_GetValue row col_idx) ;;
         if negb (IsNull val) then
           ret (push_back dataVector (switch_type_id val))
         else
           ret (push_back dataVector None))
      dataVector this
    = (Ok (dataVector ++ map pushed_slot (firstn n (skipn k row)))%list, this).
Proof.
  induction n as [|n IH]; intros k dataVector Hlen.
  - simpl. rewrite app_nil_r. reflexivity.
  - destruct (nth_error row k) as [val|] eqn:Hnth.
    2:{ apply nth_error_None in Hnth. lia. }
    cbn [seq for_each]. unfold bind at 1.
    match goal with
    | |- context [bind (lift (Row_GetValue row k)) ?K this] =>
        replace (bind (lift (Row_GetValue row k)) K this)
          with (Ok (dataVector ++ [pushed_slot val])%list, this)
    end.
    2:{ unfold bind, lift, Row_GetValue. rewrite Hnth.
        unfold pushed_slot, push_back, ret.
        destruct (IsNull val); reflexivity. }
    rewrite IH by lia. rewrite (skipn_nth_error row k val Hnth).
    cbn [firstn map]. rewrite <- app_assoc. reflexivity.
Qed.

(** The outer loop over the rows of a well-formed store. *)
Lemma row_loop (coll : ColumnDataCollection)
    (this : MaterializedQueryResult) :
  forall (rows : list ColumnDataRow) (overallResult : list (list Slot)),
    Forall (fun row => length row = ColumnCount coll) rows ->
    for_each rows
      (fun row overallResult =>
         dataVector <- for_each (seq 0 (ColumnCount coll))
           (fun col_idx dataVector =>
              val <- lift (Row_GetValue row col_idx) ;;
              if negb (IsNull val) then
                ret (push_back dataVector (switch_type_id val))
              else
                ret (push_back dataVector None))
           [] ;;
         ret (push_back overallResult dataVector))
      overallResult this
    = (Ok (overallResult ++ map (map pushed_slot) rows)%list, this).
Proof.
  induction rows as [|row rows IH]; intros overallResult Hwf.
  - simpl. rewrite app_nil_r. reflexivity.
  - inversion Hwf as [|? ? Hrow Hrest]; subst.
    cbn [for_each]. unfold bind at 1. unfold bind at 1.
    rewrite (column_loop row this (ColumnCount coll) 0 []) by (simpl; lia).
    cbn [skipn app]. rewrite <- Hrow, firstn_all.
    unfold ret at 1. rewrite Hrow. rewrite IH by exact Hrest.
    unfold push_back. rewrite <- app_assoc. reflexivity.
Qed.

(** C3: on a successful result that holds a (well-formed) store of N rows
    and C columns, getContents() returns the matrix of the specification's
    table: N rows of C slots each in store order, an absent slot for a null
    cell, and for a non-null cell the variant the table gives for its
    logical type (Bool, BigInt, UBigInt, Int, UInt, Double, String, and
    String by textual rendering for every other type). *)
Theorem C3_getContents_matrix (this : MaterializedQueryResult)
    (coll : ColumnDataCollection) :
  success this = true -> collection this = Some coll -> well_formed coll ->
  getContents this = (Ok (table_matrix coll), this) /\
  length (table_matrix coll) = Count coll /\
  Forall (fun slots => length slots = ColumnCount coll) (table_matrix coll) /\
  (forall index column val,
     cell (row_data coll) index column = Some val ->
     exists slots,
       nth_error (table_matrix coll) index = Some slots /\
       nth_error slots column = Some (table_slot val)).
Proof.
  intros Hs Hc Hwf. split; [|split; [|split]].
  - unfold getContents. unfold bind at 1. unfold get. rewrite Hs. simpl.
    unfold bind at 1. rewrite (Collection_present this coll Hs Hc).
    unfold Rows. rewrite (row_loop coll this (row_data coll) [] Hwf).
    simpl. unfold table_matrix. f_equal. f_equal.
    apply map_ext. intros row. apply map_ext. exact pushed_slot_table.
  - unfold table_matrix, Count. apply length_map.
  - unfold table_matrix. apply Forall_map.
    unfold well_formed in Hwf.
    eapply Forall_impl; [|exact Hwf]. intros row Hrow. simpl.
    rewrite length_map. exact Hrow.
  - intros index column val Hcell. unfold cell in Hcell.
    destruct (nth_error (row_data coll) index) as [row|] eqn:Hrow;
      [|discriminate].
    exists (map table_slot row). split.
    + unfold table_matrix. apply map_nth_error. exact Hrow.
    + apply map_nth_error. exact Hcell.
Qed.

(** How the table reads on each listed tag. *)
Lemma table_variant_cases (val : Value) :
  (type_id val = BOOLEAN -> table_variant val = BoolData (GetValue_bool val)) /\
  (type_id val = BIGINT -> table_variant val = BigIntData (GetValue_int64 val)) /\
  (type_id val = UBIGINT ->
     table_variant val = UBigIntData (GetValue_uint64 val)) /\
  (In (type_id val) [INTEGER; SMALLINT; TINYINT; USMALLINT; UTINYINT] ->
     table_variant val = IntData (GetValue_int val)) /\
  (type_id val = UINTEGER ->
     table_variant val = UIntData (GetValue_uint32 val)) /\
  (In (type_id val) [FLOAT; DOUBLE; DECIMAL] ->
     table_variant val = DoubleData (GetValue_double val)) /\
  (type_id val = VARCHAR ->
     table_variant val = StringData (GetValue_string val)) /\
  (forall tag, type_id val = OTHER_TYPE tag ->
     table_variant val = StringData (Value_ToString val)).
Proof.
  unfold table_variant.
  repeat split; intros; simpl in *;
    repeat match goal with
           | H : _ \/ _ |- _ => destruct H
           | H : False |- _ => destruct H
           | H : _ = type_id val |- _ => rewrite <- H
           | H : type_id val = _ |- _ => rewrite H
           end; reflexivity.
Qed.

(** ** Sequential scan *)

Lemma batch_at_length (c : ColumnDataCollection) p :
  length (batch_at c p) =
  Nat.min (Pos.to_nat (vector_size c)) (Count c - p).
Proof.
  unfold batch_at, Count. rewrite length_firstn, length_skipn. reflexivity.
Qed.

Lemma batch_at_nonempty (c : ColumnDataCollection) p :
  p < Count c -> 0 < length (batch_at c p).
Proof.
  intros H. rewrite batch_at_length.
  pose proof (Pos2Nat.is_pos (vector_size c)). lia.
Qed.

Lemma batch_at_end (c : ColumnDataCollection) p :
  Count c <= p -> batch_at c p = [].
Proof.
  intros H. unfold batch_at. rewrite skipn_all2 by exact H.
  apply firstn_nil.
Qed.

(** A batch followed by the rest of the store is the store from the
    cursor on. *)
Lemma batch_at_rest (c : ColumnDataCollection) p :
  (batch_at c p ++ skipn (p + length (batch_at c p)) (row_data c))%list
  = skipn p (row_data c).
Proof.
  transitivity (firstn (Pos.to_nat (vector_size c)) (skipn p (row_data c))
                ++ skipn (Pos.to_nat (vector_size c)) (skipn p (row_data c)))%list;
    [|apply firstn_skipn].
  fold (batch_at c p). f_equal.
  rewrite skipn_skipn.
  rewrite batch_at_length.
  destruct (Nat.le_gt_cases (Pos.to_nat (vector_size c)) (Count c - p))
    as [Hle|Hgt].
  - rewrite Nat.min_l by exact Hle. f_equal. lia.
  - rewrite Nat.min_r by lia.
    rewrite !skipn_all2; [reflexivity| |]; fold (Count c); lia.
Qed.

Lemma scan_rows_from (c : ColumnDataCollection) :
  forall fuel p, Count c - p < fuel ->
    scan_rows fuel c {| current_row := p |} = skipn p (row_data c).
Proof.
  induction fuel as [|fuel IH]; intros p Hfuel; [lia|].
  cbn [scan_rows Scan current_row InitializeScanChunk chunk_types].
  fold (batch_at c p). unfold size. cbn [chunk_rows].
  destruct (Nat.eqb_spec (length (batch_at c p)) 0) as [Hz|Hnz].
  - destruct (Nat.le_gt_cases (Count c) p) as [Hle|Hgt].
    + symmetry. apply skipn_all2. exact Hle.
    + pose proof (batch_at_nonempty c p Hgt). lia.
  - rewrite IH.
    + apply batch_at_rest.
    + rewrite batch_at_length in *. lia.
Qed.

(** A full scan of a store delivers its rows, all of them, in order. *)
Lemma full_scan_rows (c : ColumnDataCollection) :
  full_scan c = row_data c.
Proof.
  unfold full_scan, InitializeScan. rewrite scan_rows_from by lia.
  reflexivity.
Qed.

(** FetchRaw() on an object whose scan has started. *)
Lemma FetchRaw_scanning (this : MaterializedQueryResult) c :
  success this = true -> collection this = Some c ->
  scan_initialized this = true ->
  let p := current_row (scan_state this) in
  FetchRaw this =
    (if length (batch_at c p) =? 0 then Ok None
     else Ok (Some {| chunk_types := Types c; chunk_rows := batch_at c p |}),
     set_scan_state {| current_row := p + length (batch_at c p) |} this).
Proof.
  intros Hs Hc Hi p.
  unfold FetchRaw, bind, get, throw, lift, modify, ret, HasError.
  rewrite Hs, Hc, Hi. simpl. rewrite Hc. simpl.
  unfold size. simpl. fold p. fold (batch_at c p).
  destruct (length (batch_at c p) =? 0); reflexivity.
Qed.

(** The first FetchRaw() sets the cursor to the start of the store, raises
    the flag, and goes on as every later call does. *)
Lemma FetchRaw_first (this : MaterializedQueryResult) c :
  success this = true -> collection this = Some c ->
  scan_initialized this = false ->
  FetchRaw this =
  FetchRaw (set_scan_initialized true
              (set_scan_state (InitializeScan c) this)).
Proof.
  intros Hs Hc Hi.
  unfold FetchRaw, bind, get, throw, lift, modify, ret, HasError.
  simpl. rewrite Hs, Hc, Hi. simpl. rewrite Hc. reflexivity.
Qed.

(** Once the cursor has reached the end, FetchRaw() returns no value and
    leaves the object, cursor included, as it is. *)
Lemma FetchRaw_exhausted (this : MaterializedQueryResult) c :
  success this = true -> collection this = Some c ->
  scan_initialized this = true ->
  Count c <= current_row (scan_state this) ->
  FetchRaw this = (Ok None, this).
Proof.
  intros Hs Hc Hi Hend.
  rewrite (FetchRaw_scanning this c Hs Hc Hi). cbv zeta.
  rewrite (batch_at_end c _ Hend). simpl. rewrite Nat.add_0_r.
  destruct this as [s e n t co rc [p] si]. reflexivity.
Qed.

Lemma fetch_trace_exhausted (this : MaterializedQueryResult) c :
  success this = true -> collection this = Some c ->
  scan_initialized this = true ->
  Count c <= current_row (scan_state this) ->
  forall n, fetch_trace n this = (repeat (Ok None) n, this).
Proof.
  intros Hs Hc Hi Hend. induction n as [|n IH]; simpl.
  - reflexivity.
  - rewrite (FetchRaw_exhausted this c Hs Hc Hi Hend). rewrite IH.
    reflexivity.
Qed.

(** From any point of a started scan: the calls deliver the rest of the
    store in non-empty batches, then no value for ever, with the cursor
    resting at the end. *)
Lemma fetch_trace_scanning (c : ColumnDataCollection) :
  forall n (this : MaterializedQueryResult),
    success this = true -> collection this = Some c ->
    scan_initialized this = true ->
    Count c - current_row (scan_state this) <= n ->
    exists batches this_end,
      (forall extra,
         fetch_trace (length batches + extra) this =
           ((map (fun b => Ok (Some b)) batches ++ repeat (Ok None) extra)%list,
            this_end)) /\
      concat (map chunk_rows batches)
        = skipn (current_row (scan_state this)) (row_data c) /\
      Forall (fun b => 0 < size b) batches /\
      this_end =
        set_scan_state
          {| current_row := Nat.max (Count c) (current_row (scan_state this)) |}
          this.
Proof.
  induction n as [|n IH]; intros this Hs Hc Hi Hn.
  - exists [], this. split; [|split; [|split]].
    + intros extra. simpl. apply (fetch_trace_exhausted this c); auto; lia.
    + simpl. symmetry. apply skipn_all2. fold (Count c). lia.
    + constructor.
    + rewrite Nat.max_r by lia.
      destruct this as [s e nm t co rc [p] si]. reflexivity.
  - destruct (Nat.le_gt_cases (Count c) (current_row (scan_state this)))
      as [Hend|Hmore].
    + apply IH; auto. lia.
    + set (p := current_row (scan_state this)) in *.
      set (this1 :=
             set_scan_state {| current_row := p + length (batch_at c p) |}
               this).
      pose proof (batch_at_nonempty c p Hmore) as Hpos.
      pose proof (batch_at_length c p) as Hlen.
      destruct (IH this1) as (batches & this_end & Htrace & Hcat & Hall & Hend);
        try assumption.
      { simpl. lia. }
      exists ({| chunk_types := Types c; chunk_rows := batch_at c p |}
              :: batches), this_end.
      split; [|split; [|split]].
      * intros extra. cbn [length Nat.add fetch_trace].
        rewrite (FetchRaw_scanning this c Hs Hc Hi). cbv zeta. fold p.
        destruct (Nat.eqb_spec (length (batch_at c p)) 0) as [Hz|_]; [lia|].
        fold this1. rewrite Htrace. reflexivity.
      * cbn [map concat chunk_rows]. rewrite Hcat. simpl.
        apply batch_at_rest.
      * constructor; [exact Hpos|exact Hall].
      * rewrite Hend. subst this1. unfold set_scan_state. cbn.
        f_equal. f_equal. fold p. lia.
Qed.

Lemma batches_total (batches : list DataChunk) :
  list_sum (map size batches) = length (concat (map chunk_rows batches)).
Proof.
  induction batches as [|b batches IH]; simpl.
  - reflexivity.
  - rewrite length_app, IH. reflexivity.
Qed.

(** C4: on a successful result that holds a store of N rows and whose scan
    has not started, the FetchRaw() calls return batches, none of them
    empty, whose rows put end to end are the rows of the store in store
    order (so the sizes sum to N), then no value; every further call
    returns no value as well, throws nothing, and leaves the object as the
    end of the scan left it, the cursor at the end of the store and the
    flag still set. *)
Theorem C4_FetchRaw_full_pass (this : MaterializedQueryResult)
    (coll : ColumnDataCollection) :
  success this = true -> collection this = Some coll ->
  scan_initialized this = false ->
  exists batches this_end,
    (forall extra,
       fetch_trace (length batches + S extra) this =
         ((map (fun b => Ok (Some b)) batches
           ++ repeat (Ok None) (S extra))%list, this_end)) /\
    concat (map chunk_rows batches) = row_data coll /\
    list_sum (map size batches) = Count coll /\
    Forall (fun b => 0 < size b) batches /\
    scan_initialized this_end = true /\
    current_row (scan_state this_end) = Count coll /\
    FetchRaw this_end = (Ok None, this_end).
Proof.
  intros Hs Hc Hi.
  set (this0 := set_scan_initialized true
                  (set_scan_state (InitializeScan coll) this)).
  destruct (fetch_trace_scanning coll (Count coll) this0)
    as (batches & this_end & Htrace & Hcat & Hall & Hend);
    try (simpl; auto; lia).
  simpl in Hcat.
  assert (Hend' : this_end =
            set_scan_state {| current_row := Count coll |} this0).
  { rewrite Hend. simpl. rewrite Nat.max_l by lia. reflexivity. }
  exists batches, this_end. split_all.
  - intros extra. rewrite Nat.add_succ_r. cbn [fetch_trace].
    rewrite (FetchRaw_first this coll Hs Hc Hi). fold this0.
    change (fetch_trace (S (length batches + extra)) this0 =
            ((map (fun b => Ok (Some b)) batches
              ++ repeat (Ok None) (S extra))%list, this_end)).
    rewrite <- Nat.add_succ_r. apply Htrace.
  - exact Hcat.
  - rewrite batches_total, Hcat. reflexivity.
  - exact Hall.
  - rewrite Hend'. reflexivity.
  - rewrite Hend'. reflexivity.
  - apply (FetchRaw_exhausted this_end coll); rewrite Hend'; simpl; auto.
Qed.

(** ** Random access *)

(** A row view that is there stays there through a call. *)
Lemma after_row_collection (c : call) (this : MaterializedQueryResult) rc :
  row_collection this = Some rc -> row_collection (after c this) = Some rc.
Proof.
  intros Hr. destruct c; simpl.
  - rewrite Collection_read_only. exact Hr.
  - destruct (success this) eqn:Hs.
    + destruct (collection this) as [c0|] eqn:Hc.
      * rewrite (TakeCollection_present this c0 Hs Hc). exact Hr.
      * rewrite (TakeCollection_absent this Hs Hc). exact Hr.
    + rewrite TakeCollection_error
        by (unfold HasError; rewrite Hs; reflexivity).
      exact Hr.
  - unfold Fetch. destruct (FetchRaw_keeps this) as (_ & _ & _ & H).
    rewrite H. exact Hr.
  - destruct (FetchRaw_keeps this) as (_ & _ & _ & H).
    rewrite H. exact Hr.
  - rewrite (GetValue_cached this rc column index Hr). exact Hr.
  - rewrite getContents_read_only. exact Hr.
  - rewrite ToString_read_only. exact Hr.
  - rewrite ToBox_read_only. exact Hr.
Qed.

Lemma after_calls_row_collection (cs : list call) :
  forall (this : MaterializedQueryResult) rc,
    row_collection this = Some rc ->
    row_collection (after_calls cs this) = Some rc.
Proof.
  induction cs as [|c cs IH]; intros this rc Hr; simpl.
  - exact Hr.
  - fold (after_calls cs (after c this)). apply IH.
    apply after_row_collection. exact Hr.
Qed.

(** C6: on a reachable successful result that holds the (well-formed) store
    R, for every row index below the row count and column below the column
    count, GetValue(column, index) returns the cell a full scan of R shows
    at that row and column; a second call with the same arguments returns
    the same value; the first call leaves the row view of R in the object
    (building it only when none was there), and every later call, whatever
    its arguments, leaves the object untouched.  The later calls do not go
    back to the store: whatever the store pointer holds by then (the
    store, another one, or nothing), and after any sequence of calls,
    TakeCollection() included, they answer from the view the first call
    left, which is never built again. *)
Theorem C6_GetValue_reads_store (this : MaterializedQueryResult)
    (R : ColumnDataCollection) (column index : idx_t) :
  reachable this -> success this = true -> collection this = Some R ->
  well_formed R -> index < Count R -> column < ColumnCount R ->
  exists v this',
    cell (full_scan R) index column = Some v /\
    GetValue column index this = (Ok v, this') /\
    GetValue column index this' = (Ok v, this') /\
    row_collection this' = Some (GetRows R) /\
    (row_collection this = None ->
       this' = set_row_collection (Some (GetRows R)) this) /\
    (row_collection this <> None -> this' = this) /\
    (forall column' index', snd (GetValue column' index' this') = this') /\
    (forall p,
       GetValue column index (set_collection p this')
         = (Ok v, set_collection p this')) /\
    (forall p column' index',
       GetValue column' index' (set_collection p this')
         = (RowCollection_GetValue (GetRows R) column' index',
            set_collection p this')) /\
    (forall cs,
       row_collection (after_calls cs this') = Some (GetRows R) /\
       GetValue column index (after_calls cs this')
         = (Ok v, after_calls cs this')).
Proof.
  intros Hreach Hs Hc Hwf Hi Hcol.
  rewrite full_scan_rows.
  destruct (nth_error (row_data R) index) as [row|] eqn:Hrow.
  2:{ apply nth_error_None in Hrow. unfold Count in Hi. lia. }
  assert (Hlen : length row = ColumnCount R).
  { unfold well_formed in Hwf. rewrite Forall_forall in Hwf.
    apply Hwf. eapply nth_error_In. exact Hrow. }
  destruct (nth_error row column) as [v|] eqn:Hv.
  2:{ apply nth_error_None in Hv. lia. }
  assert (Hcell : cell (row_data R) index column = Some v).
  { unfold cell. rewrite Hrow. exact Hv. }
  assert (Hget : RowCollection_GetValue (GetRows R) column index = Ok v).
  { unfold RowCollection_GetValue, GetRows, Row_GetValue; simpl.
    rewrite Hrow, Hv. reflexivity. }
  pose proof (reachable_invariant this Hreach) as [_ Hview].
  assert (Hlater : forall this',
    row_collection this' = Some (GetRows R) ->
    (forall p,
       GetValue column index (set_collection p this')
         = (Ok v, set_collection p this')) /\
    (forall p column' index',
       GetValue column' index' (set_collection p this')
         = (RowCollection_GetValue (GetRows R) column' index',
            set_collection p this')) /\
    (forall cs,
       row_collection (after_calls cs this') = Some (GetRows R) /\
       GetValue column index (after_calls cs this')
         = (Ok v, after_calls cs this'))).
  { intros this' Hr'. split_all.
    - intros p.
      rewrite (GetValue_cached (set_collection p this') (GetRows R)
                 column index Hr'), Hget. reflexivity.
    - intros p column' index'.
      apply (GetValue_cached (set_collection p this') (GetRows R)
               column' index' Hr').
    - intros cs.
      pose proof (after_calls_row_collection cs this' (GetRows R) Hr')
        as Hkept.
      split; [exact Hkept|].
      rewrite (GetValue_cached _ (GetRows R) column index Hkept), Hget.
      reflexivity. }
  destruct (row_collection this) as [rc|] eqn:Hr.
  - assert (rc = GetRows R) as -> by (apply Hview; auto).
    destruct (Hlater this Hr) as (L1 & L2 & L3).
    exists v, this. split_all.
    + exact Hcell.
    + rewrite (GetValue_cached this _ column index Hr), Hget. reflexivity.
    + rewrite (GetValue_cached this _ column index Hr), Hget. reflexivity.
    + exact Hr.
    + intros H. congruence.
    + reflexivity.
    + intros column' index'.
      rewrite (GetValue_cached this _ column' index' Hr). reflexivity.
    + exact L1.
    + exact L2.
    + exact L3.
  - set (this' := set_row_collection (Some (GetRows R)) this).
    assert (Hr' : row_collection this' = Some (GetRows R)) by reflexivity.
    destruct (Hlater this' Hr') as (L1 & L2 & L3).
    exists v, this'. split_all.
    + exact Hcell.
    + rewrite (GetValue_build this R column index Hr Hc), Hget. reflexivity.
    + rewrite (GetValue_cached this' _ column index Hr'), Hget. reflexivity.
    + exact Hr'.
    + reflexivity.
    + intros H. congruence.
    + intros column' index'.
      rewrite (GetValue_cached this' _ column' index' Hr'). reflexivity.
    + exact L1.
    + exact L2.
    + exact L3.
Qed.

End Properties.

(** * The properties on concrete objects *)

Lemma sample_result_reachable : reachable sample_result.
Proof.
  apply (reachable_success ["id"; "name"] (Some sample_store)). reflexivity.
Qed.

Lemma sample_store_well_formed : well_formed sample_store.
Proof. repeat constructor. Qed.

Example getContents_sample :
  fst (getContents sample_result) =
    Ok [ [Some (IntData 1); Some (StringData "abc")];
         [Some (IntData 2); None];
         [Some (IntData 3); Some (StringData "xyz")] ].
Proof. reflexivity. Qed.

Example fetch_trace_sample :
  map (fun o => match o with
                | Ok (Some b) => Some (size b)
                | _ => None
                end) (fst (fetch_trace 4 sample_result))
  = [Some 2; Some 1; None; None].
Proof. reflexivity. Qed.

Example ToString_sample_error :
  fst (ToString sample_error_result) = Ok ("division by zero" ++ nl).
Proof. reflexivity. Qed.

Example RowCount_sample_error : RowCount sample_error_result = Ok 0.
Proof. reflexivity. Qed.

Example GetValue_as_int8_wraps :
  let big := {| Types := [BIGINT];
                row_data := [[ {| sample_type := BIGINT; sample_null := false;
                                  sample_int := 300;
                                  sample_text := "300" |} ]];
                vector_size := 1 |} in
  fst (GetValue_as (cast_signed 8) 0 0
         (set_collection (Some big) sample_result)) = Ok 44%Z.
Proof. reflexivity. Qed.



(** C3 on the sample result and store. *)
Lemma C3_witness :
  getContents sample_result = (Ok (table_matrix sample_store), sample_result)
  /\ length (table_matrix sample_store) = 3.
Proof.
  destruct (C3_getContents_matrix sample_result sample_store
              eq_refl eq_refl sample_store_well_formed) as (H1 & H2 & _).
  split; [exact H1|exact H2].
Defined.

(** C4 on the sample result, with three calls past the last batch. *)
Lemma C4_witness :
  exists batches this_end,
    fetch_trace (length batches + 3) sample_result =
      ((map (fun b => Ok (Some b)) batches ++ repeat (Ok None) 3)%list,
       this_end) /\
    list_sum (map size batches) = 3.
Proof.
  destruct (C4_FetchRaw_full_pass sample_result sample_store
              eq_refl eq_refl eq_refl)
    as (batches & this_end & Htrace & _ & Hsum & _).
  exists batches, this_end. split; [apply (Htrace 2)|exact Hsum].
Defined.

(** C5 on the sample error result. *)
Lemma C5_witness :
  getContents sample_error_result = (Ok [], sample_error_result).
Proof.
  apply (C5_getContents_error_result_empty sample_error_result). reflexivity.
Defined.

(** C6 at row 2, column 1 of the sample result: the value is the cell of
    the store, and it is still returned once the store pointer is null
    and after a fetch followed by TakeCollection(). *)
Lemma C6_witness :
  exists v this',
    cell (full_scan sample_store) 2 1 = Some v /\
    GetValue 1 2 sample_result = (Ok v, this') /\
    GetValue 1 2 this' = (Ok v, this') /\
    GetValue 1 2 (set_collection None this')
      = (Ok v, set_collection None this') /\
    fst (GetValue 0 0 (set_collection None this')) = Ok (sample_integer 1) /\
    fst (GetValue 1 2
           (after_calls [call_FetchRaw; call_TakeCollection] this')) = Ok v.
Proof.
  destruct (C6_GetValue_reads_store sample_result sample_store 1 2
              sample_result_reachable eq_refl eq_refl
              sample_store_well_formed)
    as (v & this' & H1 & H2 & H3 & _ & _ & _ & _ & H8 & H9 & H10).
  - unfold Count; simpl; lia.
  - unfold ColumnCount; simpl; lia.
  - exists v, this'. split; [exact H1|]. split; [exact H2|].
    split; [exact H3|]. split; [exact (H8 None)|]. split.
    + rewrite (H9 None 0 0). reflexivity.
    + rewrite (proj2 (H10 [call_FetchRaw; call_TakeCollection])).
      reflexivity.
Defined.

(** C7 on the sample error result. *)
Lemma C7_witness :
  FetchRaw sample_error_result =
    (Throw (InvalidInputException
       ("Attempting to fetch from an unsuccessful query result" ++ nl
        ++ "Error: " ++ "division by zero")), sample_error_result).
Proof.
  apply (proj2 (C7_Fetch_alias_and_error sample_error_result)). reflexivity.
Defined.

(** C8 on the sample error result. *)
Lemma C8_witness :
  ToString sample_error_result =
    (Ok ("division by zero" ++ nl), sample_error_result).
Proof.
  apply (proj1 (C8_ToString_error_result sample_error_result eq_refl)).
Defined.

(** C9 with the cast to a signed 32-bit integer, at row 2, column 0. *)
Lemma C9_witness :
  fst (GetValue_as (cast_signed 32) 0 2 sample_result) = Ok 3%Z.
Proof.
  apply (proj2 (C9_GetValue_as_via_int64 (cast_signed 32) 0 2 sample_result)
           sample_store (sample_integer 3) sample_result_reachable
           eq_refl eq_refl).
Defined.

(** C10 on the sample result, the sample error result and the sample result without its store. *)
Lemma C10_witness :
  RowCount sample_result = Ok 3 /\
  RowCount sample_error_result = Ok 0 /\
  RowCount (set_collection None sample_result) = Ok 0.
Proof.
  split; [|split].
  - apply (proj1 (proj2 (C10_RowCount_total sample_result)) sample_store).
    reflexivity.
  - destruct (C10_RowCount_total sample_error_result) as (_ & _ & _ & H & _).
    apply H; [apply reachable_error|reflexivity].
  - destruct (C10_RowCount_total sample_result) as (_ & _ & _ & _ & H).
    apply (H sample_store (set_collection None sample_result) eq_refl).
Defined.

(** * Further properties of the member functions *)

Section Further.
Context {DV : DynamicValue} {RD : Renderers}.

Ltac split_all := repeat match goal with |- _ /\ _ => split end.

(** ** What a call can change *)

(** A call leaves the success flag, the error, the names and the types as
    they are; it can only write the store pointer, the row view and the two
    scan members. *)
Lemma after_frame (c : call) (this : MaterializedQueryResult) :
  exists p rc st b,
    after c this =
      {| success := success this; error := error this;
         names := names this; types := types this;
         collection := p; row_collection := rc;
         scan_state := st; scan_initialized := b |}.
Proof.
  assert (Hsame : exists p rc st b,
    this = {| success := success this; error := error this;
              names := names this; types := types this;
              collection := p; row_collection := rc;
              scan_state := st; scan_initialized := b |}).
  { destruct this; simpl; repeat eexists. }
  assert (Hfetch : exists p rc st b,
    snd (FetchRaw this) =
      {| success := success this; error := error this;
         names := names this; types := types this;
         collection := p; row_collection := rc;
         scan_state := st; scan_initialized := b |}).
  { unfold FetchRaw, bind, get, throw, lift, modify, ret, HasError.
    destruct this as [s e n t [c0|] rc st [|]]; destruct s; simpl;
      unfold size; simpl;
      try match goal with
          | |- context [if ?b then _ else _] => destruct b
          end; simpl; repeat eexists. }
  destruct c; simpl.
  - rewrite Collection_read_only. exact Hsame.
  - destruct (success this) eqn:Hs.
    + destruct (collection this) as [c0|] eqn:Hc.
      * rewrite (TakeCollection_present this c0 Hs Hc).
        unfold set_collection. simpl. rewrite Hs. repeat eexists.
      * rewrite (TakeCollection_absent this Hs Hc). simpl.
        exact Hsame.
    + rewrite TakeCollection_error
        by (unfold HasError; rewrite Hs; reflexivity).
      simpl. exact Hsame.
  - exact Hfetch.
  - exact Hfetch.
  - destruct (row_collection this) as [rc|] eqn:Hr.
    + rewrite (GetValue_cached this rc column index Hr). simpl.
      destruct Hsame as (p & rc' & st & b & Hsame). exists p, rc', st, b.
      exact Hsame.
    + destruct (collection this) as [c0|] eqn:Hc.
      * rewrite (GetValue_build this c0 column index Hr Hc).
        unfold set_row_collection. simpl. repeat eexists.
      * rewrite (GetValue_no_store this column index Hr Hc). simpl.
        destruct Hsame as (p & rc' & st & b & Hsame). exists p, rc', st, b.
        exact Hsame.
  - rewrite getContents_read_only. exact Hsame.
  - rewrite ToString_read_only. exact Hsame.
  - rewrite ToBox_read_only. exact Hsame.
Qed.

(** The store pointer after a call is the one before it, or null. *)
Lemma after_collection (c : call) (this : MaterializedQueryResult) :
  collection (after c this) = collection this \/
  (c = call_TakeCollection /\ collection (after c this) = None).
Proof.
  destruct c; simpl.
  - rewrite Collection_read_only. auto.
  - destruct (success this) eqn:Hs.
    + destruct (collection this) as [c0|] eqn:Hc.
      * rewrite (TakeCollection_present this c0 Hs Hc). simpl. auto.
      * rewrite (TakeCollection_absent this Hs Hc). simpl. auto.
    + rewrite TakeCollection_error
        by (unfold HasError; rewrite Hs; reflexivity).
      simpl. auto.
  - left. apply (FetchRaw_keeps this).
  - left. apply (FetchRaw_keeps this).
  - destruct (row_collection this) as [rc|] eqn:Hr.
    + rewrite (GetValue_cached this rc column index Hr). auto.
    + destruct (collection this) as [c0|] eqn:Hc.
      * rewrite (GetValue_build this c0 column index Hr Hc). simpl. auto.
      * rewrite (GetValue_no_store this column index Hr Hc). simpl. auto.
  - rewrite getContents_read_only. auto.
  - rewrite ToString_read_only. auto.
  - rewrite ToBox_read_only. auto.
Qed.

Lemma after_calls_success (cs : list call) :
  forall this, success (after_calls cs this) = success this.
Proof.
  induction cs as [|c cs IH]; intros this; simpl; [reflexivity|].
  fold (after_calls cs (after c this)). rewrite IH.
  destruct (after_frame c this) as (p & rc & st & b & ->). reflexivity.
Qed.

Lemma after_calls_no_store (cs : list call) :
  forall this, collection this = None ->
    collection (after_calls cs this) = None.
Proof.
  induction cs as [|c cs IH]; intros this Hnone; simpl; [exact Hnone|].
  fold (after_calls cs (after c this)). apply IH.
  destruct (after_collection c this) as [H|[_ H]]; congruence.
Qed.

Lemma after_calls_frame (cs : list call) :
  forall this,
    success (after_calls cs this) = success this /\
    error (after_calls cs this) = error this /\
    names (after_calls cs this) = names this /\
    types (after_calls cs this) = types this.
Proof.
  induction cs as [|c cs IH]; intros this; simpl; [auto|].
  fold (after_calls cs (after c this)).
  destruct (IH (after c this)) as (H1 & H2 & H3 & H4).
  rewrite H1, H2, H3, H4.
  destruct (after_frame c this) as (p & rc & st & b & ->). simpl. auto.
Qed.

Lemma after_calls_collection (cs : list call) :
  forall this,
    collection (after_calls cs this) = collection this \/
    (In call_TakeCollection cs /\ collection (after_calls cs this) = None).
Proof.
  induction cs as [|c cs IH]; intros this; simpl; [auto|].
  fold (after_calls cs (after c this)).
  destruct (IH (after c this)) as [Hsame|[Hin Hnone]].
  - rewrite Hsame.
    destruct (after_collection c this) as [H|[Hc H]]; [auto|].
    right. split; [auto|].
    rewrite <- Hsame. apply after_calls_no_store. exact H.
  - right. auto.
Qed.

(** ** Construction *)

(** X1: the success constructor, given a store, builds a result without
    error whose types are the store's, whose Collection() is that store and
    whose RowCount() is its row count; given a null pointer it fails on
    reading the types.  The error constructor builds a result with the
    error set, no rows, and the error text as its box rendering. *)
Theorem X1_constructors (names_p : list string) (c : ColumnDataCollection)
    (err : string) :
  (exists this,
     MaterializedQueryResult_success names_p (Some c) = Ok this /\
     HasError this = false /\ names this = names_p /\
     types this = Types c /\
     Collection this = (Ok c, this) /\
     RowCount this = Ok (Count c) /\
     ToBox this = (Ok (BoxRenderer_ToString names_p c), this)) /\
  MaterializedQueryResult_success names_p None = Throw NullDereference /\
  (let this := MaterializedQueryResult_error err in
   HasError this = true /\ GetError this = err /\
   RowCount this = Ok 0 /\
   ToBox this = (Ok (err ++ nl), this) /\
   fst (Collection this) =
     Throw (InvalidInputException
       ("Attempting to get collection from an unsuccessful query result"
        ++ nl ++ ": Error " ++ err))).
Proof.
  split; [|split].
  - eexists. split; [reflexivity|]. split_all; reflexivity.
  - reflexivity.
  - cbv zeta. split_all; reflexivity.
Qed.

(** X2: no sequence of calls changes the success flag, the error text, the
    column names or the column types: an error result stays an error result
    with the same text, and a successful result never turns into an error
    result. *)
Theorem X2_calls_keep_error_state (cs : list call)
    (this : MaterializedQueryResult) :
  HasError (after_calls cs this) = HasError this /\
  GetError (after_calls cs this) = GetError this /\
  names (after_calls cs this) = names this /\
  types (after_calls cs this) = types this.
Proof.
  destruct (after_calls_frame cs this) as (H1 & H2 & H3 & H4).
  unfold HasError, GetError. rewrite H1, H2, H3, H4. auto.
Qed.

(** ** Collection and TakeCollection *)

(** X3: Collection() returns a store exactly when the result is successful
    and holds that store, and then leaves the object as it was. *)
Theorem X3_Collection_returns_iff (this this' : MaterializedQueryResult)
    (c : ColumnDataCollection) :
  Collection this = (Ok c, this') <->
  (success this = true /\ collection this = Some c /\ this' = this).
Proof.
  split.
  - intros H. destruct (success this) eqn:Hs.
    + destruct (collection this) as [c0|] eqn:Hc.
      * rewrite (Collection_present this c0 Hs Hc) in H.
        inversion H; subst. auto.
      * rewrite (Collection_absent this Hs Hc) in H. discriminate.
    + unfold Collection, bind, get, throw, HasError in H. rewrite Hs in H.
      discriminate.
  - intros (Hs & Hc & ->). apply Collection_present; assumption.
Qed.

(** X4: TakeCollection() returns or throws exactly what Collection() does
    on the same object, and changes the object only when it returns: then
    the store pointer is null and nothing else has moved. *)
Theorem X4_TakeCollection_like_Collection (this : MaterializedQueryResult) :
  fst (TakeCollection this) = fst (Collection this) /\
  (fails (fst (TakeCollection this)) -> snd (TakeCollection this) = this) /\
  (forall c, fst (TakeCollection this) = Ok c ->
     snd (TakeCollection this) = set_collection None this).
Proof.
  destruct (success this) eqn:Hs.
  - destruct (collection this) as [c0|] eqn:Hc.
    + rewrite (TakeCollection_present this c0 Hs Hc),
              (Collection_present this c0 Hs Hc). simpl.
      split_all; [reflexivity| |reflexivity].
      intros [e He]. discriminate.
    + rewrite (TakeCollection_absent this Hs Hc),
              (Collection_absent this Hs Hc). simpl.
      split_all; [reflexivity|reflexivity|]. intros c H. discriminate.
  - assert (He : HasError this = true) by (unfold HasError; rewrite Hs; reflexivity).
    rewrite (TakeCollection_error this He).
    unfold Collection, bind, get, throw. rewrite He. simpl.
    split_all; [reflexivity|reflexivity|]. intros c H. discriminate.
Qed.

(** X5: the transfer of the store is final: once TakeCollection() has
    returned, whatever calls follow, TakeCollection() and Collection()
    throw the internal error and RowCount() is 0. *)
Theorem X5_TakeCollection_is_final (this this' : MaterializedQueryResult)
    (c : ColumnDataCollection) (cs : list call) :
  TakeCollection this = (Ok c, this') ->
  let later := after_calls cs this' in
  TakeCollection later =
    (Throw (InternalException
              "Missing collection from materialized query result"), later) /\
  Collection later =
    (Throw (InternalException
              "Missing collection from materialized query result"), later) /\
  RowCount later = Ok 0.
Proof.
  intros Htake later. apply TakeCollection_ok in Htake.
  destruct Htake as (Hs & _ & ->).
  assert (Hs' : success later = true).
  { unfold later. rewrite after_calls_success. exact Hs. }
  assert (Hc' : collection later = None).
  { unfold later. apply after_calls_no_store. reflexivity. }
  split_all.
  - apply TakeCollection_absent; assumption.
  - apply Collection_absent; assumption.
  - unfold RowCount. rewrite Hc'. reflexivity.
Qed.

(** X6: the object never changes store: the store it holds after any
    sequence of calls is the store it held before, and when no
    TakeCollection() is among the calls it still holds it. *)
Theorem X6_store_never_replaced (cs : list call)
    (this : MaterializedQueryResult) :
  (forall R, collection (after_calls cs this) = Some R ->
     collection this = Some R) /\
  (~ In call_TakeCollection cs ->
     collection (after_calls cs this) = collection this).
Proof.
  destruct (after_calls_collection cs this) as [H|[Hin H]].
  - split; [intros R HR; congruence|auto].
  - split; [intros R HR; congruence|]. intros Hno. contradiction.
Qed.

(** ** Rendering *)

(** X7: ToBox() never throws and never changes the object: it gives the
    error text and a line feed on an error result, the fixed message on a
    successful result without store, and the box of the renderer
    otherwise. *)
Theorem X7_ToBox_never_throws (this : MaterializedQueryResult) :
  (exists text, ToBox this = (Ok text, this)) /\
  (HasError this = true -> ToBox this = (Ok (GetError this ++ nl), this)) /\
  (HasError this = false -> collection this = None ->
     ToBox this =
       (Ok "Internal error - result was successful but there was no collection",
        this)) /\
  (forall c, HasError this = false -> collection this = Some c ->
     ToBox this = (Ok (BoxRenderer_ToString (names this) c), this)).
Proof.
  assert (H1 : HasError this = true ->
               ToBox this = (Ok (GetError this ++ nl), this)).
  { intros H. unfold HasError in H.
    unfold ToBox, bind, get, ret. rewrite H. reflexivity. }
  assert (H2 : HasError this = false -> collection this = None ->
     ToBox this =
       (Ok "Internal error - result was successful but there was no collection",
        this)).
  { intros H Hc. unfold HasError in H.
    unfold ToBox, bind, get, ret. rewrite H, Hc. reflexivity. }
  assert (H3 : forall c, HasError this = false -> collection this = Some c ->
     ToBox this = (Ok (BoxRenderer_ToString (names this) c), this)).
  { intros c H Hc. pose proof H as Hs. unfold HasError in Hs.
    apply negb_false_iff in Hs.
    unfold ToBox. unfold bind at 1. unfold get.
    unfold HasError in H. rewrite H, Hc. simpl.
    unfold bind. rewrite (Collection_present this c Hs Hc). reflexivity. }
  split_all; auto.
  destruct (HasError this) eqn:He.
  - eexists. apply H1. reflexivity.
  - destruct (collection this) as [c|] eqn:Hc.
    + eexists. apply (H3 c); reflexivity.
    + eexists. apply H2; reflexivity.
Qed.

(** X8: on a successful result whose store has been taken, ToString()
    reads the row count through the null store pointer before it reaches
    Collection(): it fails on the dereference, where getContents() throws
    the internal error and ToBox() returns its message. *)
Theorem X8_ToString_without_store (this : MaterializedQueryResult) :
  success this = true -> collection this = None ->
  ToString this = (Throw NullDereference, this) /\
  getContents this =
    (Throw (InternalException
              "Missing collection from materialized query result"), this) /\
  ToBox this =
    (Ok "Internal error - result was successful but there was no collection",
     this).
Proof.
  intros Hs Hc. split_all.
  - unfold ToString, bind, get, lift. rewrite Hs, Hc. reflexivity.
  - unfold getContents. unfold bind at 1. unfold get. rewrite Hs. simpl.
    unfold bind. rewrite (Collection_absent this Hs Hc). reflexivity.
  - unfold ToBox, bind, get, ret. rewrite Hs, Hc. reflexivity.
Qed.

(** ** The text of ToString *)

Lemma append_assoc (a b c : string) : (a ++ b) ++ c = a ++ b ++ c.
Proof. induction a as [|ch a IH]; simpl; [reflexivity|]. rewrite IH. reflexivity. Qed.

Lemma append_nil_r (a : string) : a ++ "" = a.
Proof. induction a as [|ch a IH]; simpl; [reflexivity|]. rewrite IH. reflexivity. Qed.

Lemma concat_tab_cons (cell : string) (cells : list string) :
  String.concat tab (cell :: cells) = cell ++ tab_joined cells.
Proof.
  revert cell. induction cells as [|c cells IH]; intros cell.
  - simpl. symmetry. apply append_nil_r.
  - change (String.concat tab (cell :: c :: cells))
      with (cell ++ tab ++ String.concat tab (c :: cells)).
    rewrite IH. reflexivity.
Qed.

Lemma concat_empty_cons (line : string) (lines : list string) :
  String.concat "" (line :: lines) = line ++ String.concat "" lines.
Proof.
  destruct lines as [|l lines]; simpl; [|reflexivity].
  symmetry. apply append_nil_r.
Qed.

Lemma for_each_cons {A S : Type} (x : A) (l : list A)
    (body : A -> S -> M S) (acc : S) :
  for_each (x :: l) body acc =
  bind (body x acc) (fun acc' => for_each l body acc').
Proof. reflexivity. Qed.

(** The inner loop of ToString from a column after the first. *)
Lemma text_column_loop (row : ColumnDataRow)
    (this : MaterializedQueryResult) :
  forall n k (result : string),
    0 < k -> k + n <= length row ->
    for_each (seq k n)
      (fun col_idx result =>
         let result := if 0 <? col_idx then result ++ tab else result in
         val <- lift (Row_GetValue row col_idx) ;;
         ret (result ++ (if IsNull val then "NULL"
                         else Replace (Value_ToString val) NUL "\0")))
      result this
    = (Ok (result ++ tab_joined (map cell_text (firstn n (skipn k row)))),
       this).
Proof.
  induction n as [|n IH]; intros k result Hk Hlen.
  - simpl. rewrite append_nil_r. reflexivity.
  - destruct (nth_error row k) as [val|] eqn:Hnth.
    2:{ apply nth_error_None in Hnth. lia. }
    cbn [seq for_each]. unfold bind at 1.
    destruct (Nat.ltb_spec 0 k) as [_|Hbad]; [|lia].
    match goal with
    | |- context [bind (lift (Row_GetValue row k)) ?K this] =>
        replace (bind (lift (Row_GetValue row k)) K this)
          with (Ok ((result ++ tab) ++ cell_text val), this)
    end.
    2:{ unfold bind, lift, Row_GetValue. rewrite Hnth. reflexivity. }
    rewrite IH by lia. rewrite (skipn_nth_error row k val Hnth).
    cbn [firstn map tab_joined fold_right]. fold (tab_joined (map cell_text (firstn n (skipn (S k) row)))).
    rewrite !append_assoc. reflexivity.
Qed.

(** The inner loop of ToString over a whole row. *)
Lemma text_row_loop (row : ColumnDataRow) (this : MaterializedQueryResult)
    (result : string) :
  for_each (seq 0 (length row))
    (fun col_idx result =>
       let result := if 0 <? col_idx then result ++ tab else result in
       val <- lift (Row_GetValue row col_idx) ;;
       ret (result ++ (if IsNull val then "NULL"
                       else Replace (Value_ToString val) NUL "\0")))
    result this
  = (Ok (result ++ String.concat tab (map cell_text row)), this).
Proof.
  destruct row as [|val row].
  - simpl. rewrite append_nil_r. reflexivity.
  - cbn [length seq for_each]. unfold bind at 1.
    match goal with
    | |- context [bind (lift (Row_GetValue (val :: row) 0)) ?K this] =>
        replace (bind (lift (Row_GetValue (val :: row) 0)) K this)
          with (Ok (result ++ cell_text val), this) by reflexivity
    end.
    rewrite (text_column_loop (val :: row) this (length row) 1)
      by (simpl; lia).
    cbn [skipn map]. rewrite firstn_all, concat_tab_cons.
    rewrite append_assoc. reflexivity.
Qed.

(** The outer loop of ToString over the rows of a well-formed store. *)
Lemma text_rows_loop (coll : ColumnDataCollection)
    (this : MaterializedQueryResult) :
  forall (rows : list ColumnDataRow) (result : string),
    Forall (fun row => length row = ColumnCount coll) rows ->
    for_each rows
      (fun row result =>
         result <- for_each (seq 0 (ColumnCount coll))
           (fun col_idx result =>
              let result := if 0 <? col_idx then result ++ tab else result in
              val <- lift (Row_GetValue row col_idx) ;;
              ret (result ++ (if IsNull val then "NULL"
                              else Replace (Value_ToString val) NUL "\0")))
           result ;;
         ret (result ++ nl))
      result this
    = (Ok (result ++ String.concat "" (map row_text rows)), this).
Proof.
  induction rows as [|row rows IH]; intros result Hwf.
  - simpl. rewrite append_nil_r. reflexivity.
  - inversion Hwf as [|? ? Hrow Hrest]; subst.
    rewrite for_each_cons. unfold bind at 1. cbv beta. unfold bind at 1.
    pose proof (text_row_loop row this result) as Hin.
    rewrite Hrow in Hin.
    match goal with
    | |- context [for_each (seq 0 (ColumnCount coll)) ?B result this] =>
        replace (for_each (seq 0 (ColumnCount coll)) B result this)
          with (Ok (result ++ String.concat tab (map cell_text row)), this)
          by (symmetry; exact Hin)
    end.
    unfold ret at 1.
    match goal with
    | |- context [for_each rows ?B ?a this] =>
        replace (for_each rows B a this)
          with (Ok (a ++ String.concat "" (map row_text rows)), this)
          by (symmetry; apply IH; exact Hrest)
    end.
    cbn [map]. rewrite concat_empty_cons. unfold row_text at 2.
    rewrite !append_assoc. reflexivity.
Qed.

(** X9: on a successful result that holds a well-formed store, ToString()
    returns the header, the line "[ Rows: N]", one line per row with the
    cells separated by tabs (NULL for a null cell, the value's text with
    every NUL byte escaped otherwise), and a closing empty line; the object
    is left as it was. *)
Theorem X9_ToString_success_text (this : MaterializedQueryResult)
    (coll : ColumnDataCollection) :
  success this = true -> collection this = Some coll -> well_formed coll ->
  ToString this =
    (Ok (HeaderToString this ++ "[ Rows: " ++ to_string (Count coll) ++ "]"
         ++ nl ++ String.concat "" (map row_text (row_data coll)) ++ nl),
     this).
Proof.
  intros Hs Hc Hwf.
  unfold ToString. unfold bind at 1. unfold get. rewrite Hs.
  unfold bind at 1. unfold lift at 1. rewrite Hc. cbn [deref].
  unfold bind at 1. rewrite (Collection_present this coll Hs Hc).
  unfold bind at 1. unfold Rows.
  rewrite (text_rows_loop coll this (row_data coll) _ Hwf).
  unfold ret. rewrite !append_assoc. reflexivity.
Qed.

Lemma chars_app (a b : string) : chars (a ++ b) = (chars a ++ chars b)%list.
Proof.
  unfold chars. induction a as [|ch a IH]; simpl; [reflexivity|].
  rewrite IH. reflexivity.
Qed.

Lemma Replace_removes (source : string) (from : ascii) (to : string) :
  ~ In from (chars to) -> ~ In from (chars (Replace source from to)).
Proof.
  intros Hto. induction source as [|ch rest IH]; simpl.
  - intros [].
  - destruct (Ascii.eqb_spec ch from) as [->|Hne].
    + rewrite chars_app. intros Hin. apply in_app_or in Hin. tauto.
    + unfold chars in *. simpl. intros [H|H]; [congruence|tauto].
Qed.

Lemma Replace_absent (source : string) (from : ascii) (to : string) :
  ~ In from (chars source) -> Replace source from to = source.
Proof.
  induction source as [|ch rest IH]; simpl; intros Hno; [reflexivity|].
  unfold chars in *. simpl in Hno.
  destruct (Ascii.eqb_spec ch from) as [->|Hne]; [tauto|].
  rewrite IH by tauto. reflexivity.
Qed.

(** X10: the text ToString() writes for a cell never holds a NUL byte, and
    a non-null value whose text holds none is written unchanged. *)
Theorem X10_cell_text_has_no_NUL (val : Value) :
  ~ In NUL (chars (cell_text val)) /\
  (IsNull val = false -> ~ In NUL (chars (Value_ToString val)) ->
     cell_text val = Value_ToString val).
Proof.
  unfold cell_text. split.
  - destruct (IsNull val).
    + unfold chars, NUL. simpl. intros H.
      repeat (destruct H as [H|H]; [discriminate H|]). exact H.
    + apply Replace_removes. unfold chars, NUL. simpl. intros H.
      repeat (destruct H as [H|H]; [discriminate H|]). exact H.
  - intros Hn Hno. rewrite Hn. apply Replace_absent. exact Hno.
Qed.

(** ** The sequential scan and the other calls *)

(** FetchRaw() on a successful result that holds a store, whether the
    scan has started or not. *)
Lemma FetchRaw_present (this : MaterializedQueryResult) c :
  success this = true -> collection this = Some c ->
  let started :=
    if scan_initialized this then this
    else set_scan_initialized true (set_scan_state (InitializeScan c) this) in
  let p := current_row (scan_state started) in
  FetchRaw this =
    (if length (batch_at c p) =? 0 then Ok None
     else Ok (Some {| chunk_types := Types c; chunk_rows := batch_at c p |}),
     set_scan_state {| current_row := p + length (batch_at c p) |} started).
Proof.
  intros Hs Hc. destruct (scan_initialized this) eqn:Hi; cbv zeta.
  - apply FetchRaw_scanning; assumption.
  - rewrite (FetchRaw_first this c Hs Hc Hi).
    apply FetchRaw_scanning; auto.
Qed.

(** X11: a chunk returned by FetchRaw() is never empty: an empty batch is
    turned into the null return.  A chunk is only returned by a successful
    result that holds its store, it carries the store's column types, and
    the scan is marked as started afterwards. *)
Theorem X11_FetchRaw_chunk_not_empty (this this' : MaterializedQueryResult)
    (chunk : DataChunk) :
  FetchRaw this = (Ok (Some chunk), this') ->
  0 < size chunk /\ success this = true /\
  scan_initialized this' = true /\
  exists c, collection this = Some c /\ chunk_types chunk = Types c.
Proof.
  intros H. destruct (success this) eqn:Hs.
  2:{ rewrite FetchRaw_error in H
        by (unfold HasError; rewrite Hs; reflexivity).
      discriminate. }
  destruct (collection this) as [c|] eqn:Hc.
  2:{ rewrite (FetchRaw_no_store this Hs Hc) in H. discriminate. }
  rewrite (FetchRaw_present this c Hs Hc) in H. cbv zeta in H.
  match type of H with
  | context [length ?l =? 0] => destruct (Nat.eqb_spec (length l) 0) as [Hz|Hnz]
  end; [discriminate|].
  inversion H; subst; clear H. unfold size. cbn [chunk_rows chunk_types].
  split_all; [lia|reflexivity| |exists c; auto].
  destruct (scan_initialized this) eqn:Hi; [exact Hi|reflexivity].
Qed.

(** What a call does to the two scan members. *)
Lemma after_scan (c : call) (this : MaterializedQueryResult) :
  (is_fetch c = false ->
     scan_state (after c this) = scan_state this /\
     scan_initialized (after c this) = scan_initialized this) /\
  (scan_initialized this = true ->
     scan_initialized (after c this) = true /\
     current_row (scan_state this)
       <= current_row (scan_state (after c this))).
Proof.
  assert (Hfetch : scan_initialized this = true ->
     scan_initialized (snd (FetchRaw this)) = true /\
     current_row (scan_state this)
       <= current_row (scan_state (snd (FetchRaw this)))).
  { intros Hi. destruct (success this) eqn:Hs.
    2:{ rewrite FetchRaw_error
          by (unfold HasError; rewrite Hs; reflexivity). simpl. auto. }
    destruct (collection this) as [c0|] eqn:Hc.
    2:{ rewrite (FetchRaw_no_store this Hs Hc). simpl. auto. }
    rewrite (FetchRaw_scanning this c0 Hs Hc Hi). simpl. split; [exact Hi|lia]. }
  assert (Hsame : forall this', this' = this ->
     (scan_state this' = scan_state this /\
      scan_initialized this' = scan_initialized this)).
  { intros ? ->. auto. }
  assert (Hmono : forall this',
     scan_state this' = scan_state this ->
     scan_initialized this' = scan_initialized this ->
     scan_initialized this = true ->
     scan_initialized this' = true /\
     current_row (scan_state this) <= current_row (scan_state this')).
  { intros this' H1 H2 Hi. rewrite H1, H2. auto. }
  assert (Hother :
     scan_state (after c this) = scan_state this /\
     scan_initialized (after c this) = scan_initialized this \/
     is_fetch c = true).
  { destruct c; simpl; auto; left.
    - apply Hsame, Collection_read_only.
    - destruct (success this) eqn:Hs.
      + destruct (collection this) as [c0|] eqn:Hc.
        * rewrite (TakeCollection_present this c0 Hs Hc). simpl. auto.
        * rewrite (TakeCollection_absent this Hs Hc). simpl. auto.
      + rewrite TakeCollection_error
          by (unfold HasError; rewrite Hs; reflexivity).
        simpl. auto.
    - destruct (row_collection this) as [rc|] eqn:Hr.
      + rewrite (GetValue_cached this rc column index Hr). simpl. auto.
      + destruct (collection this) as [c0|] eqn:Hc.
        * rewrite (GetValue_build this c0 column index Hr Hc). simpl. auto.
        * rewrite (GetValue_no_store this column index Hr Hc). simpl. auto.
    - apply Hsame, getContents_read_only.
    - apply Hsame, ToString_read_only.
    - apply Hsame, ToBox_read_only. }
  destruct Hother as [[H1 H2]|Hf].
  - split; [auto|]. apply Hmono; assumption.
  - split; [rewrite Hf; discriminate|].
    destruct c; simpl in Hf; try discriminate; exact Hfetch.
Qed.

(** X12: a scan that has started is never started again: after any
    sequence of calls the flag is still set and the cursor has not moved
    back; and the calls other than Fetch() and FetchRaw() leave the cursor
    and the flag as they are. *)
Theorem X12_scan_never_restarts (cs : list call)
    (this : MaterializedQueryResult) :
  (scan_initialized this = true ->
     scan_initialized (after_calls cs this) = true /\
     current_row (scan_state this)
       <= current_row (scan_state (after_calls cs this))) /\
  (forallb (fun c => negb (is_fetch c)) cs = true ->
     scan_state (after_calls cs this) = scan_state this /\
     scan_initialized (after_calls cs this) = scan_initialized this).
Proof.
  split.
  - revert this. induction cs as [|c cs IH]; intros this Hi; simpl.
    + auto.
    + fold (after_calls cs (after c this)).
      destruct (proj2 (after_scan c this) Hi) as [Hi' Hle].
      destruct (IH (after c this) Hi') as [Hi'' Hle'].
      split; [exact Hi''|lia].
  - revert this. induction cs as [|c cs IH]; intros this Hall; simpl.
    + auto.
    + fold (after_calls cs (after c this)).
      simpl in Hall. apply andb_true_iff in Hall. destruct Hall as [Hc Hall].
      apply negb_true_iff in Hc.
      destruct (proj1 (after_scan c this) Hc) as [H1 H2].
      destruct (IH (after c this) Hall) as [H3 H4].
      split; congruence.
Qed.

(** X13: the sequential scan and the random access do not disturb each
    other: FetchRaw() returns the same after a GetValue() call as before
    it, GetValue() returns the same after a FetchRaw() call as before it,
    and the two calls leave the same object in either order. *)
Theorem X13_FetchRaw_GetValue_commute (this : MaterializedQueryResult)
    (column index : idx_t) :
  fst (FetchRaw (after (call_GetValue column index) this))
    = fst (FetchRaw this) /\
  fst (GetValue column index (after call_FetchRaw this))
    = fst (GetValue column index this) /\
  after call_FetchRaw (after (call_GetValue column index) this)
    = after (call_GetValue column index) (after call_FetchRaw this).
Proof.
  unfold after.
  unfold FetchRaw, GetValue, bind, get, throw, lift, modify, ret, HasError.
  destruct this as [s e n t [c|] [rc|] st [|]]; destruct s; simpl;
    unfold size; simpl;
    repeat match goal with
           | |- context [if ?b then _ else _] => destruct b; simpl
           end;
    auto.
Qed.

(** ** Bulk extraction and the other calls *)

Ltac read_only_step :=
  first [ apply read_only_ret | apply read_only_throw | apply read_only_lift
        | apply read_only_get | apply read_only_if
        | apply read_only_for_each; intros
        | apply read_only_bind; [|intros] ].

Lemma state_blind_ret {A} (a : A) : state_blind (ret a).
Proof. intros s1 s2; reflexivity. Qed.

Lemma state_blind_lift {A} (o : outcome A) : state_blind (lift o).
Proof. intros s1 s2; reflexivity. Qed.

Lemma state_blind_if {A} (b : bool) (m1 m2 : M A) :
  state_blind m1 -> state_blind m2 -> state_blind (if b then m1 else m2).
Proof. destruct b; auto. Qed.

Lemma state_blind_bind {A B} (m : M A) (k : A -> M B) :
  state_blind m -> read_only m -> (forall a, state_blind (k a)) ->
  state_blind (bind m k).
Proof.
  intros Hm Hro Hk s1 s2. unfold bind.
  pose proof (Hm s1 s2) as Hfst.
  pose proof (Hro s1) as H1. pose proof (Hro s2) as H2.
  destruct (m s1) as [[a1|e1] s1'], (m s2) as [[a2|e2] s2'];
    simpl in *; subst; try discriminate.
  - inversion Hfst; subst. apply Hk.
  - inversion Hfst; subst. reflexivity.
Qed.

Lemma state_blind_for_each {A S} (body : A -> S -> M S) :
  (forall x acc, state_blind (body x acc)) ->
  (forall x acc, read_only (body x acc)) ->
  forall l acc, state_blind (for_each l body acc).
Proof.
  intros Hb Hro l. induction l as [|x l IH]; intros acc; simpl.
  - apply state_blind_ret.
  - apply state_blind_bind; auto.
Qed.

Ltac state_blind_step :=
  first [ apply state_blind_ret | apply state_blind_lift
        | apply state_blind_if
        | apply state_blind_for_each; intros
        | apply state_blind_bind; [| |intros] ].

(** getContents() on a successful result that holds a store is its two
    loops. *)
Lemma getContents_loops (this : MaterializedQueryResult) coll :
  success this = true -> collection this = Some coll ->
  getContents this =
    for_each (Rows coll) (fun row overallResult =>
      dataVector <- for_each (seq 0 (ColumnCount coll))
        (fun col_idx dataVector =>
           val <- lift (Row_GetValue row col_idx) ;;
           if negb (IsNull val) then
             ret (push_back dataVector (switch_type_id val))
           else
             ret (push_back dataVector None))
        [] ;;
      ret (push_back overallResult dataVector))
    [] this.
Proof.
  intros Hs Hc. unfold getContents. unfold bind at 1. unfold get.
  rewrite Hs. cbn [negb]. unfold bind at 1.
  rewrite (Collection_present this coll Hs Hc). reflexivity.
Qed.

Lemma getContents_no_store (this : MaterializedQueryResult) :
  success this = true -> collection this = None ->
  getContents this =
    (Throw (InternalException
              "Missing collection from materialized query result"), this).
Proof.
  intros Hs Hc. unfold getContents. unfold bind at 1. unfold get.
  rewrite Hs. cbn [negb]. unfold bind.
  rewrite (Collection_absent this Hs Hc). reflexivity.
Qed.

Lemma getContents_error (this : MaterializedQueryResult) :
  success this = false -> getContents this = (Ok [], this).
Proof.
  intros Hs. unfold getContents, bind, get, ret. rewrite Hs. reflexivity.
Qed.

Lemma getContents_present (this : MaterializedQueryResult) coll :
  success this = true -> collection this = Some coll -> well_formed coll ->
  getContents this = (Ok (map (map pushed_slot) (row_data coll)), this).
Proof.
  intros Hs Hc Hwf. rewrite (getContents_loops this coll Hs Hc).
  unfold Rows. rewrite (row_loop coll this (row_data coll) [] Hwf).
  reflexivity.
Qed.

(** The outcome of getContents() is decided by the success flag and the
    store pointer. *)
Lemma getContents_depends (a b : MaterializedQueryResult) :
  success a = success b -> collection a = collection b ->
  fst (getContents a) = fst (getContents b).
Proof.
  intros Hs Hc. destruct (success b) eqn:Hsb.
  - destruct (collection b) as [coll|] eqn:Hcb.
    + rewrite (getContents_loops a coll Hs Hc),
              (getContents_loops b coll Hsb Hcb).
      apply state_blind_for_each.
      * intros row acc. repeat state_blind_step; repeat read_only_step.
      * intros row acc. repeat read_only_step.
    + rewrite (getContents_no_store a Hs Hc),
              (getContents_no_store b Hsb Hcb). reflexivity.
  - rewrite (getContents_error a Hs), (getContents_error b Hsb).
    reflexivity.
Qed.

(** X14: getContents() does not consume the result: after any sequence of
    calls without TakeCollection() (fetches, lookups, renderings, earlier
    extractions) it returns what it would have returned at the start, and
    so does RowCount(). *)
Theorem X14_getContents_repeatable (cs : list call)
    (this : MaterializedQueryResult) :
  ~ In call_TakeCollection cs ->
  fst (getContents (after_calls cs this)) = fst (getContents this) /\
  RowCount (after_calls cs this) = RowCount this.
Proof.
  intros Hno.
  assert (Hc : collection (after_calls cs this) = collection this).
  { destruct (after_calls_collection cs this) as [H|[Hin _]];
      [exact H|contradiction]. }
  split.
  - apply getContents_depends; [apply after_calls_success|exact Hc].
  - unfold RowCount. rewrite Hc. reflexivity.
Qed.

(** ** Random access at the edges *)

(** X15: a lookup outside the store (row index or column past the end)
    fails on the row view, not before: the view of the store has been built
    by then and stays in the object. *)
Theorem X15_GetValue_out_of_range (this : MaterializedQueryResult)
    (R : ColumnDataCollection) (column index : idx_t) :
  reachable this -> collection this = Some R ->
  cell (row_data R) index column = None ->
  fst (GetValue column index this) = Throw IndexOutOfRange /\
  row_collection (snd (GetValue column index this)) = Some (GetRows R).
Proof.
  intros Hreach Hc Hcell.
  assert (Hget : RowCollection_GetValue (GetRows R) column index
                 = Throw IndexOutOfRange).
  { unfold RowCollection_GetValue, GetRows, Row_GetValue; simpl.
    unfold cell in Hcell.
    destruct (nth_error (row_data R) index) as [row|]; [|reflexivity].
    rewrite Hcell. reflexivity. }
  destruct (reachable_invariant this Hreach) as [_ Hview].
  destruct (row_collection this) as [rc|] eqn:Hr.
  - rewrite (GetValue_cached this rc column index Hr). simpl.
    rewrite (Hview rc R eq_refl Hc) in *. auto.
  - rewrite (GetValue_build this R column index Hr Hc). simpl. auto.
Qed.

(** X16: the two ways to read a cell agree: on a reachable successful
    result that holds a well-formed store, the slot of the getContents()
    matrix at a row and column is the narrowing of the value GetValue()
    returns for that column and row, absent when that value is null. *)
Theorem X16_getContents_agrees_with_GetValue
    (this : MaterializedQueryResult) (R : ColumnDataCollection)
    (column index : idx_t) :
  reachable this -> success this = true -> collection this = Some R ->
  well_formed R -> index < Count R -> column < ColumnCount R ->
  exists val matrix,
    fst (GetValue column index this) = Ok val /\
    fst (getContents this) = Ok matrix /\
    slot_at matrix index column =
      Some (if IsNull val then None else switch_type_id val).
Proof.
  intros Hreach Hs Hc Hwf Hi Hcol.
  destruct (nth_error (row_data R) index) as [row|] eqn:Hrow.
  2:{ apply nth_error_None in Hrow. unfold Count in Hi. lia. }
  assert (Hlen : length row = ColumnCount R).
  { unfold well_formed in Hwf. rewrite Forall_forall in Hwf.
    apply Hwf. eapply nth_error_In. exact Hrow. }
  destruct (nth_error row column) as [val|] eqn:Hv.
  2:{ apply nth_error_None in Hv. lia. }
  exists val, (map (map pushed_slot) (row_data R)). split_all.
  - apply (GetValue_reads_cell this R column index val Hreach Hc).
    unfold cell. rewrite Hrow. exact Hv.
  - rewrite (getContents_present this R Hs Hc Hwf). reflexivity.
  - unfold slot_at. rewrite (map_nth_error _ _ _ Hrow).
    rewrite (map_nth_error _ _ _ Hv). unfold pushed_slot.
    destruct (IsNull val); reflexivity.
Qed.

(** ** The shape of the matrix *)

(** A loop that returns has kept, step by step, what each returning run of
    its body keeps. *)
Lemma for_each_returns {A S} (body : A -> S -> M S) (I : nat -> S -> Prop) :
  (forall x acc this acc' this' n,
     I n acc -> body x acc this = (Ok acc', this') -> I (Datatypes.S n) acc') ->
  forall l acc this r this' n,
    I n acc -> for_each l body acc this = (Ok r, this') ->
    I (n + length l) r.
Proof.
  intros Hstep l. induction l as [|x l IH]; intros acc this r this' n Hn Hrun.
  - simpl in *. inversion Hrun; subst. rewrite Nat.add_0_r. exact Hn.
  - rewrite for_each_cons in Hrun. unfold bind in Hrun.
    destruct (body x acc this) as [[acc1|e] this1] eqn:Hbody;
      [|discriminate].
    cbn [length]. rewrite Nat.add_succ_r.
    apply (IH acc1 this1 r this' (Datatypes.S n)); [|exact Hrun].
    eapply Hstep; eassumption.
Qed.

(** X17: whenever getContents() returns on a reachable object, the matrix
    has RowCount() rows, and on a successful result each of them has one
    slot per column of the store, whatever the rows of the store look
    like. *)
Theorem X17_getContents_shape (this this' : MaterializedQueryResult)
    (matrix : list (list Slot)) :
  reachable this -> getContents this = (Ok matrix, this') ->
  RowCount this = Ok (length matrix) /\
  (forall R, collection this = Some R ->
     Forall (fun slots => length slots = ColumnCount R) matrix).
Proof.
  intros Hreach Hrun.
  destruct (reachable_invariant this Hreach) as [Herr _].
  destruct (success this) eqn:Hs.
  2:{ rewrite (getContents_error this Hs) in Hrun.
      inversion Hrun; subst. destruct (Herr eq_refl) as [Hc _].
      unfold RowCount. rewrite Hc. simpl. split; [reflexivity|].
      intros R HR. constructor. }
  destruct (collection this) as [coll|] eqn:Hc.
  2:{ rewrite (getContents_no_store this Hs Hc) in Hrun. discriminate. }
  rewrite (getContents_loops this coll Hs Hc) in Hrun.
  apply (for_each_returns _
           (fun n m => length m = n /\
                       Forall (fun slots => length slots = ColumnCount coll) m)
           ) with (n := 0) in Hrun.
  - destruct Hrun as [Hlen Hall]. split.
    + unfold RowCount. rewrite Hc. simpl. unfold Count, Rows in *.
      rewrite Hlen. reflexivity.
    + intros R HR. inversion HR; subst. exact Hall.
  - intros row acc s acc' s' n [Hn Hall] Hbody.
    unfold bind at 1 in Hbody.
    match type of Hbody with
    | context [for_each ?l ?b ?a s] =>
        destruct (for_each l b a s) as [[dataVector|e] s1] eqn:Hinner
    end; [|discriminate].
    unfold ret in Hbody. inversion Hbody; subst; clear Hbody.
    apply (for_each_returns _ (fun n v => length v = n)) with (n := 0)
      in Hinner.
    + rewrite length_seq in Hinner. simpl in Hinner.
      unfold push_back. split.
      * rewrite length_app. simpl. lia.
      * apply Forall_app. split; [exact Hall|]. constructor; [exact Hinner|constructor].
    + intros col v s2 v' s2' k Hk Hcell.
      unfold bind, lift in Hcell.
      destruct (Row_GetValue row col) as [val|e]; [|discriminate].
      unfold push_back, ret in Hcell.
      destruct (negb (IsNull val)); inversion Hcell; subst;
        rewrite length_app; simpl; lia.
    + reflexivity.
  - split; [reflexivity|constructor].
Qed.

(** X18: in the matrix of a successful result that holds a well-formed
    store, a slot is absent exactly when the cell is null: every non-null
    cell, whatever its type, gets a record. *)
Theorem X18_slot_absent_iff_null (this : MaterializedQueryResult)
    (R : ColumnDataCollection) (column index : idx_t) (val : Value) :
  success this = true -> collection this = Some R -> well_formed R ->
  cell (row_data R) index column = Some val ->
  exists matrix slot,
    fst (getContents this) = Ok matrix /\
    slot_at matrix index column = Some slot /\
    (slot = None <-> IsNull val = true).
Proof.
  intros Hs Hc Hwf Hcell.
  exists (map (map pushed_slot) (row_data R)), (pushed_slot val). split_all.
  - rewrite (getContents_present this R Hs Hc Hwf). reflexivity.
  - unfold cell in Hcell. unfold slot_at.
    destruct (nth_error (row_data R) index) as [row|] eqn:Hrow;
      [|discriminate].
    rewrite (map_nth_error _ _ _ Hrow). apply map_nth_error. exact Hcell.
  - unfold pushed_slot, switch_type_id.
    destruct (IsNull val); simpl; [tauto|].
    destruct (type_id val); split; discriminate.
Qed.

(** ** The id field *)

(** X19: the id a record stores tells its kind apart from every other
    kind but one: IntData and BoolData both store 13. *)
Theorem X19_data_id_and_kind (a b : Base) :
  data_id a = data_id b <->
  (kind_of a = kind_of b \/
   (kind_of a = kind_Int /\ kind_of b = kind_Bool) \/
   (kind_of a = kind_Bool /\ kind_of b = kind_Int)).
Proof.
  destruct a, b; simpl; split; intros H;
    try discriminate; try reflexivity; auto;
    repeat match goal with
           | H : _ \/ _ |- _ => destruct H
           | H : _ /\ _ |- _ => destruct H
           end; try discriminate.
Qed.

(** ** Calls that only read *)

(** X20: Collection(), getContents(), ToString() and ToBox() never change
    the object, whether they return or throw: rendering and bulk
    extraction neither advance the scan nor build the row view. *)
Theorem X20_reading_calls_change_nothing (this : MaterializedQueryResult) :
  after call_Collection this = this /\
  after call_getContents this = this /\
  after call_ToString this = this /\
  after call_ToBox this = this.
Proof.
  unfold after. split_all.
  - apply Collection_read_only.
  - apply getContents_read_only.
  - apply ToString_read_only.
  - apply ToBox_read_only.
Qed.

(** X21: the row view, once built, is kept for good: no sequence of calls,
    TakeCollection() included, rebuilds it or drops it, and every later
    GetValue() answers from it. *)
Theorem X21_row_view_is_kept (cs : list call)
    (this : MaterializedQueryResult) (rc : ColumnDataRowCollection) :
  row_collection this = Some rc ->
  row_collection (after_calls cs this) = Some rc /\
  forall column index,
    fst (GetValue column index (after_calls cs this)) =
      RowCollection_GetValue rc column index.
Proof.
  intros Hr.
  assert (H : row_collection (after_calls cs this) = Some rc).
  { revert this Hr. induction cs as [|c cs IH]; intros this Hr; simpl.
    - exact Hr.
    - fold (after_calls cs (after c this)). apply IH.
      apply after_row_collection. exact Hr. }
  split; [exact H|]. intros column index.
  rewrite (GetValue_cached _ rc column index H). reflexivity.
Qed.

End Further.

(** * The further properties on concrete objects *)

(** X3 on the sample result. *)
Lemma X3_witness : Collection sample_result = (Ok sample_store, sample_result).
Proof.
  apply (proj2 (X3_Collection_returns_iff sample_result sample_result
                  sample_store)).
  split; [reflexivity|split; reflexivity].
Defined.

(** X4 on the sample result and the sample error result. *)
Lemma X4_witness :
  snd (TakeCollection sample_error_result) = sample_error_result /\
  snd (TakeCollection sample_result) = set_collection None sample_result.
Proof.
  split.
  - apply (proj1 (proj2 (X4_TakeCollection_like_Collection
                           sample_error_result))).
    eexists. reflexivity.
  - apply (proj2 (proj2 (X4_TakeCollection_like_Collection sample_result))
             sample_store).
    reflexivity.
Defined.

(** X5 on the sample result, with a fetch, a lookup and a second transfer
    after the first. *)
Lemma X5_witness :
  let later :=
    after_calls [call_FetchRaw; call_GetValue 0 0; call_TakeCollection]
      (set_collection None sample_result) in
  RowCount later = Ok 0 /\ fails (fst (Collection later)).
Proof.
  destruct (X5_TakeCollection_is_final sample_result
              (set_collection None sample_result) sample_store
              [call_FetchRaw; call_GetValue 0 0; call_TakeCollection]
              eq_refl) as (_ & H2 & H3).
  split; [exact H3|]. rewrite H2. eexists. reflexivity.
Defined.

(** X6 on the sample result after a lookup, a fetch and a rendering. *)
Lemma X6_witness :
  collection (after_calls [call_GetValue 1 1; call_Fetch; call_ToString]
                sample_result) = Some sample_store.
Proof.
  apply (proj2 (X6_store_never_replaced
                  [call_GetValue 1 1; call_Fetch; call_ToString]
                  sample_result)).
  simpl. intros [H|[H|[H|H]]]; try discriminate H. exact H.
Defined.

(** X7 on the sample error result and on the sample result without its
    store. *)
Lemma X7_witness :
  ToBox sample_error_result =
    (Ok ("division by zero" ++ nl), sample_error_result) /\
  fst (ToBox (set_collection None sample_result)) =
    Ok "Internal error - result was successful but there was no collection".
Proof.
  split.
  - apply (proj1 (proj2 (X7_ToBox_never_throws sample_error_result))).
    reflexivity.
  - rewrite (proj1 (proj2 (proj2 (X7_ToBox_never_throws
                (set_collection None sample_result)))) eq_refl eq_refl).
    reflexivity.
Defined.

(** X8 on the sample result without its store. *)
Lemma X8_witness :
  ToString (set_collection None sample_result) =
    (Throw NullDereference, set_collection None sample_result).
Proof.
  apply (proj1 (X8_ToString_without_store
                  (set_collection None sample_result) eq_refl eq_refl)).
Defined.

(** X9 on the sample result. *)
Lemma X9_witness :
  fst (ToString sample_result) =
    Ok ("id" ++ tab ++ "name" ++ tab ++ nl ++ "[ Rows: 3]" ++ nl
        ++ "1" ++ tab ++ "abc" ++ nl
        ++ "2" ++ tab ++ "NULL" ++ nl
        ++ "3" ++ tab ++ "xyz" ++ nl ++ nl).
Proof.
  rewrite (X9_ToString_success_text sample_result sample_store
             eq_refl eq_refl sample_store_well_formed).
  reflexivity.
Defined.

(** X10 on the text "abc". *)
Lemma X10_witness : cell_text (sample_varchar "abc") = "abc".
Proof.
  apply (proj2 (X10_cell_text_has_no_NUL (DV := Sample_DynamicValue)
                  (sample_varchar "abc")) eq_refl).
  unfold chars, NUL. simpl. intros H.
  repeat (destruct H as [H|H]; [discriminate H|]). exact H.
Defined.

(** X11 on the first fetch from the sample result. *)
Lemma X11_witness :
  exists chunk this',
    FetchRaw sample_result = (Ok (Some chunk), this') /\ 0 < size chunk.
Proof.
  assert (H : FetchRaw sample_result =
    (Ok (Some {| chunk_types := [INTEGER; VARCHAR];
                 chunk_rows := firstn 2 (row_data sample_store) |}),
     set_scan_state {| current_row := 2 |}
       (set_scan_initialized true sample_result))) by reflexivity.
  eexists. eexists. split; [exact H|].
  apply (proj1 (X11_FetchRaw_chunk_not_empty _ _ _ H)).
Defined.

(** X12 on the sample result after its first fetch. *)
Lemma X12_witness :
  scan_initialized
    (after_calls [call_GetValue 0 0; call_FetchRaw; call_getContents;
                  call_FetchRaw; call_FetchRaw]
       (after call_FetchRaw sample_result)) = true.
Proof.
  apply (proj1 (X12_scan_never_restarts
                  [call_GetValue 0 0; call_FetchRaw; call_getContents;
                   call_FetchRaw; call_FetchRaw]
                  (after call_FetchRaw sample_result))).
  reflexivity.
Defined.

(** X14 on the sample result after two fetches, a lookup and a
    rendering. *)
Lemma X14_witness :
  fst (getContents
         (after_calls [call_FetchRaw; call_GetValue 0 0; call_FetchRaw;
                       call_ToString] sample_result))
  = fst (getContents sample_result).
Proof.
  apply (X14_getContents_repeatable
           [call_FetchRaw; call_GetValue 0 0; call_FetchRaw; call_ToString]
           sample_result).
  simpl. intros [H|[H|[H|[H|H]]]]; try discriminate H. exact H.
Defined.

(** X15 at row 7 of the sample result, which has three rows. *)
Lemma X15_witness :
  fst (GetValue 0 7 sample_result) = Throw IndexOutOfRange /\
  row_collection (snd (GetValue 0 7 sample_result))
    = Some (GetRows sample_store).
Proof.
  apply (X15_GetValue_out_of_range sample_result sample_store 0 7
           sample_result_reachable eq_refl eq_refl).
Defined.

(** X16 at row 1, column 1 of the sample result, a null cell. *)
Lemma X16_witness :
  exists val matrix,
    fst (GetValue 1 1 sample_result) = Ok val /\
    fst (getContents sample_result) = Ok matrix /\
    slot_at matrix 1 1 = Some (if IsNull val then None else switch_type_id val).
Proof.
  apply (X16_getContents_agrees_with_GetValue sample_result sample_store 1 1
           sample_result_reachable eq_refl eq_refl sample_store_well_formed).
  - unfold Count; simpl; lia.
  - unfold ColumnCount; simpl; lia.
Defined.

(** X17 on the sample result. *)
Lemma X17_witness :
  RowCount sample_result = Ok 3 /\
  Forall (fun slots => length slots = 2)
    [ [Some (IntData 1); Some (StringData "abc")];
      [Some (IntData 2); None];
      [Some (IntData 3); Some (StringData "xyz")] ].
Proof.
  destruct (X17_getContents_shape sample_result sample_result _
              sample_result_reachable eq_refl) as [H1 H2].
  split; [exact H1|]. apply (H2 sample_store eq_refl).
Defined.

(** X18 at row 1, column 1 of the sample result, a null cell. *)
Lemma X18_witness :
  exists matrix slot,
    fst (getContents sample_result) = Ok matrix /\
    slot_at matrix 1 1 = Some slot /\
    (slot = None <-> IsNull (sample_null_of VARCHAR) = true).
Proof.
  apply (X18_slot_absent_iff_null sample_result sample_store 1 1
           (sample_null_of VARCHAR) eq_refl eq_refl
           sample_store_well_formed eq_refl).
Defined.

(** X19 on an IntData and a BoolData record. *)
Lemma X19_witness :
  data_id (IntData 1) = data_id (BoolData true).
Proof.
  apply (proj2 (X19_data_id_and_kind (IntData 1) (BoolData true))).
  right. left. split; reflexivity.
Defined.

(** X21 on the sample result after a first lookup, then a transfer of the
    store and a fetch. *)
Lemma X21_witness :
  fst (GetValue 1 0
         (after_calls [call_TakeCollection; call_FetchRaw]
            (after (call_GetValue 0 0) sample_result)))
  = Ok (sample_varchar "abc").
Proof.
  rewrite (proj2 (X21_row_view_is_kept [call_TakeCollection; call_FetchRaw]
                    (after (call_GetValue 0 0) sample_result)
                    (GetRows sample_store) eq_refl) 1 0).
  reflexivity.
Defined.
